(** * requests_toolbelt.adapters.socket_options

    A shallow embedding of [SocketOptionsAdapter] and [TCPKeepAliveAdapter]
    (src/requests_toolbelt/adapters/socket_options.py) together with the few
    pieces of Python that the two classes lean on: keyword dictionaries,
    attribute lookup on modules and instances, a store of mutable objects
    with reference values, and exceptions.

    Python objects live in a store and are named by references, so that
    "the same list" means the same location, and "not mutated" means the
    object at that location is unchanged. *)

From stdpp Require Import gmap strings list fin_maps.
From Stdlib Require Import ZArith Lia.

Local Open Scope string_scope.
Local Open Scope list_scope.
Local Open Scope Z_scope.

(** ** Values and objects *)

Abbreviation loc := nat.

(** Python values.  Lists, dictionaries and instances are mutable objects
    and appear as references into the store; tuples are immutable and are
    values of their own. *)
#[warnings="-register-all"]
Inductive value : Type :=
| VNone
| VBool (b : bool)
| VInt (n : Z)
| VStr (s : string)
| VTuple (items : list value)
| VRef (l : loc).

(** The classes that take part. *)
Inductive class : Type :=
| HTTPAdapter
| SocketOptionsAdapter
| TCPKeepAliveAdapter.

Inductive object : Type :=
| OList (items : list value)
| ODict (entries : gmap string value)
| OInstance (cls : class) (attrs : gmap string value)
| OPoolManager (num_pools : value) (connection_pool_kw : gmap string value).

(** The store is a bump allocator: a new object gets the next index and
    nothing is ever freed. *)
Abbreviation heap := (list object).

Inductive exn : Type :=
| AttributeError (owner name : string)
| TypeError_unexpected_keyword
| TypeError_multiple_values (name : string)
| TypeError_unsupported_operand.

Inductive outcome (A : Type) : Type :=
| Ok (a : A)
| Raise (e : exn).
Arguments Ok {A} a.
Arguments Raise {A} e.

(** ** The store-and-exception monad

    A Python statement runs in a store and either yields a value or raises;
    what it wrote to the store before raising stays written. *)
Definition M (A : Type) : Type := heap -> heap * outcome A.

Definition ret {A} (a : A) : M A := fun h => (h, Ok a).
Definition raise {A} (e : exn) : M A := fun h => (h, Raise e).
Definition bind {A B} (m : M A) (k : A -> M B) : M B :=
  fun h => match m h with
           | (h', Ok a) => k a h'
           | (h', Raise e) => (h', Raise e)
           end.

Notation "x <- m ;; k" := (bind m (fun x => k))
  (at level 100, m at next level, right associativity).
Notation "m ;;; k" := (bind m (fun _ => k))
  (at level 100, right associativity).

Definition alloc (o : object) : M loc :=
  fun h => (h ++ [o], Ok (length h)).

(** ** The environment of the module

    What the module imports and does not define itself. *)
Record world : Type := {
  (** [requests.__build__] *)
  requests_build : Z;
  (** the attributes of the [socket] module *)
  socket : gmap string value;
  (** [connection.HTTPConnection.default_socket_options] *)
  default_socket_options : value
}.

(** ** Python primitives *)

(** [module.name] *)
Definition getattr_module (owner : string) (ns : gmap string value)
    (name : string) : M value :=
  match ns !! name with
  | Some v => ret v
  | None => raise (AttributeError owner name)
  end.

(** [d.pop(key, default)] on a keyword dictionary: the value and what is
    left of the dictionary. *)
Definition dict_pop (kwargs : gmap string value) (key : string)
    (dflt : value) : value * gmap string value :=
  (default dflt (kwargs !! key), delete key kwargs).

(** Attributes that a class itself carries.  Only the data attribute
    [default_options] of line 37 matters here; it is bound once, when the
    class body runs, to the transport library's list and is inherited by
    [TCPKeepAliveAdapter]. *)
Definition class_attr (w : world) (c : class) (name : string) : option value :=
  match c with
  | HTTPAdapter => None
  | SocketOptionsAdapter | TCPKeepAliveAdapter =>
      if decide (name = "default_options") then Some (default_socket_options w)
      else None
  end.

Definition class_name (c : class) : string :=
  match c with
  | HTTPAdapter => "HTTPAdapter"
  | SocketOptionsAdapter => "SocketOptionsAdapter"
  | TCPKeepAliveAdapter => "TCPKeepAliveAdapter"
  end.

(** [Cls.name] *)
Definition getattr_class (w : world) (c : class) (name : string) : M value :=
  match class_attr w c name with
  | Some v => ret v
  | None => raise (AttributeError (class_name c) name)
  end.

(** [self.name]: the instance's own attributes first, then the class. *)
Definition getattr (w : world) (self : loc) (name : string) : M value :=
  fun h =>
    match h !! self with
    | Some (OInstance c attrs) =>
        match attrs !! name with
        | Some v => (h, Ok v)
        | None =>
            match class_attr w c name with
            | Some v => (h, Ok v)
            | None => (h, Raise (AttributeError (class_name c) name))
            end
        end
    | _ => (h, Raise (AttributeError "object" name))
    end.

(** [self.name = v] *)
Definition setattr (self : loc) (name : string) (v : value) : M unit :=
  fun h =>
    match h !! self with
    | Some (OInstance c attrs) =>
        (<[self := OInstance c (<[name := v]> attrs)]> h, Ok tt)
    | _ => (h, Raise (AttributeError "object" name))
    end.

(** A list display [[x; y; ...]] makes a new list object. *)
Definition new_list (items : list value) : M value :=
  l <- alloc (OList items) ;; ret (VRef l).

(** [a + b] on lists makes a third list and leaves both operands alone. *)
Definition list_add (a b : value) : M value :=
  fun h =>
    match a, b with
    | VRef la, VRef lb =>
        match h !! la, h !! lb with
        | Some (OList xs), Some (OList ys) => new_list (xs ++ ys) h
        | _, _ => (h, Raise TypeError_unsupported_operand)
        end
    | _, _ => (h, Raise TypeError_unsupported_operand)
    end.

(** ** The transport library

    [requests.adapters.HTTPAdapter] and [urllib3.poolmanager.PoolManager]
    are not part of this repository.  They are modelled as far as the two
    adapters touch them: the pool manager keeps the keyword arguments it was
    built with, and the base adapter builds one from its constructor. *)

(** [PoolManager(num_pools=n, **connection_pool_kw)] *)
Definition PoolManager (num_pools : value)
    (connection_pool_kw : gmap string value) : M value :=
  p <- alloc (OPoolManager num_pools connection_pool_kw) ;; ret (VRef p).

Definition DEFAULT_POOLBLOCK : value := VBool false.
Definition DEFAULT_POOLSIZE : value := VInt 10.
Definition DEFAULT_RETRIES : value := VInt 0.

(** [HTTPAdapter.init_poolmanager(self, connections, maxsize, block=False)] *)
Definition HTTPAdapter_init_poolmanager (self : loc)
    (connections maxsize : value) (block : option value) : M unit :=
  let block := default DEFAULT_POOLBLOCK block in
  setattr self "_pool_connections" connections ;;;
  setattr self "_pool_maxsize" maxsize ;;;
  setattr self "_pool_block" block ;;;
  pm <- PoolManager connections
          (<["maxsize" := maxsize]> (<["block" := block]> ∅)) ;;
  setattr self "poolmanager" pm.

(** ** SocketOptionsAdapter *)

(** Lines 45-56. *)
Definition SocketOptionsAdapter_init_poolmanager (w : world) (self : loc)
    (connections maxsize : value) (block : option value) : M unit :=
  let block := default (VBool false) block in
  if 0x020400 <=? requests_build w then
    opts <- getattr w self "socket_options" ;;
    pm <- PoolManager connections
            (<["maxsize" := maxsize]>
               (<["block" := block]>
                  (<["socket_options" := opts]> ∅))) ;;
    setattr self "poolmanager" pm
  else
    HTTPAdapter_init_poolmanager self connections maxsize (Some block).

(** [self.init_poolmanager(...)]: the method of the instance's class. *)
Definition init_poolmanager (w : world) (self : loc)
    (connections maxsize : value) (block : option value) : M unit :=
  fun h =>
    match h !! self with
    | Some (OInstance HTTPAdapter _) =>
        HTTPAdapter_init_poolmanager self connections maxsize block h
    | Some (OInstance _ _) =>
        SocketOptionsAdapter_init_poolmanager w self connections maxsize block h
    | _ => (h, Raise (AttributeError "object" "init_poolmanager"))
    end.

Definition HTTPAdapter_params : gset string :=
  {[ "pool_connections"; "pool_maxsize"; "max_retries"; "pool_block" ]}.

(** [HTTPAdapter.__init__(self, pool_connections=10, pool_maxsize=10,
    max_retries=0, pool_block=False)], called with [**kwargs], as requests
    2.4.0 has it (the release the gate of line 46 names).  What the
    properties below rest on is common to the releases since: the four
    keywords, that the body writes attributes of [self] other than
    [socket_options] and only allocates besides, and that it ends with
    [self.init_poolmanager(pool_connections, pool_maxsize,
    block=pool_block)].  How many objects the body allocates differs between
    releases; the main theorems do not count them. *)
Definition HTTPAdapter_init (w : world) (self : loc)
    (kwargs : gmap string value) : M unit :=
  if bool_decide (dom kwargs ⊆ HTTPAdapter_params) then
    let pool_connections := default DEFAULT_POOLSIZE (kwargs !! "pool_connections") in
    let pool_maxsize := default DEFAULT_POOLSIZE (kwargs !! "pool_maxsize") in
    let max_retries := default DEFAULT_RETRIES (kwargs !! "max_retries") in
    let pool_block := default DEFAULT_POOLBLOCK (kwargs !! "pool_block") in
    setattr self "max_retries" max_retries ;;;
    config <- alloc (ODict ∅) ;;
    setattr self "config" (VRef config) ;;;
    proxy_manager <- alloc (ODict ∅) ;;
    setattr self "proxy_manager" (VRef proxy_manager) ;;;
    setattr self "_pool_connections" pool_connections ;;;
    setattr self "_pool_maxsize" pool_maxsize ;;;
    setattr self "_pool_block" pool_block ;;;
    init_poolmanager w self pool_connections pool_maxsize (Some pool_block)
  else raise TypeError_unexpected_keyword.

(** Lines 39-43. *)
Definition SocketOptionsAdapter_init (w : world) (self : loc)
    (kwargs : gmap string value) : M unit :=
  dflt <- getattr w self "default_options" ;;
  let '(opts, kwargs) := dict_pop kwargs "socket_options" dflt in
  setattr self "socket_options" opts ;;;
  HTTPAdapter_init w self kwargs.

(** ** TCPKeepAliveAdapter *)

(** Lines 84-96.  The names are looked up on the [socket] module one after
    the other, in the order the list display writes them. *)
Definition TCPKeepAliveAdapter_init (w : world) (self : loc)
    (kwargs : gmap string value) : M unit :=
  let '(idle, kwargs) := dict_pop kwargs "idle" (VInt 60) in
  let '(interval, kwargs) := dict_pop kwargs "interval" (VInt 20) in
  let '(count, kwargs) := dict_pop kwargs "count" (VInt 5) in
  defaults <- getattr_class w SocketOptionsAdapter "default_options" ;;
  sol_socket <- getattr_module "socket" (socket w) "SOL_SOCKET" ;;
  so_keepalive <- getattr_module "socket" (socket w) "SO_KEEPALIVE" ;;
  tcp_idle <- getattr_module "socket" (socket w) "IPROTO_TCP" ;;
  tcp_keepidle <- getattr_module "socket" (socket w) "TCP_KEEPIDLE" ;;
  tcp_intvl <- getattr_module "socket" (socket w) "IPROTO_TCP" ;;
  tcp_keepintvl <- getattr_module "socket" (socket w) "TCP_KEEPINTVL" ;;
  tcp_cnt <- getattr_module "socket" (socket w) "IPROTO_TCP" ;;
  tcp_keepcnt <- getattr_module "socket" (socket w) "TCP_KEEPCNT" ;;
  extra <- new_list [ VTuple [sol_socket; so_keepalive; VInt 1];
                      VTuple [tcp_idle; tcp_keepidle; idle];
                      VTuple [tcp_intvl; tcp_keepintvl; interval];
                      VTuple [tcp_cnt; tcp_keepcnt; count] ] ;;
  socket_options <- list_add defaults extra ;;
  if decide (is_Some (kwargs !! "socket_options")) then
    raise (TypeError_multiple_values "socket_options")
  else
    SocketOptionsAdapter_init w self (<["socket_options" := socket_options]> kwargs).

(** ** Instantiation: calling a class with keyword arguments *)

Definition init_of (c : class) : world -> loc -> gmap string value -> M unit :=
  match c with
  | HTTPAdapter => HTTPAdapter_init
  | SocketOptionsAdapter => SocketOptionsAdapter_init
  | TCPKeepAliveAdapter => TCPKeepAliveAdapter_init
  end.

(** [Cls(...)] makes the instance and calls [__init__] on it with the
    keywords.  The instance is bound to the parameter [self] of
    [def __init__(self, **kwargs)], so a keyword named [self] is refused when
    the call is bound, before the body runs. *)
Definition new (w : world) (c : class) (kwargs : gmap string value) : M value :=
  self <- alloc (OInstance c ∅) ;;
  (if decide (is_Some (kwargs !! "self"))
   then raise (TypeError_multiple_values "self")
   else init_of c w self kwargs) ;;;
  ret (VRef self).

(** ** A Linux host with requests 2.4.0

    The [socket] module of CPython on Linux, restricted to the names of
    interest.  It spells the protocol constant [IPPROTO_TCP]. *)
Definition linux_socket : gmap string value :=
  list_to_map [ ("SOL_SOCKET", VInt 1); ("SO_KEEPALIVE", VInt 9);
                ("IPPROTO_TCP", VInt 6); ("TCP_NODELAY", VInt 1);
                ("TCP_KEEPIDLE", VInt 4); ("TCP_KEEPINTVL", VInt 5);
                ("TCP_KEEPCNT", VInt 6) ].

Definition linux_world : world :=
  {| requests_build := 0x020400;
     socket := linux_socket;
     default_socket_options := VRef 0%nat |}.

(** The store once the libraries are imported: the transport library's
    default list [[(IPPROTO_TCP, TCP_NODELAY, 1)]] sits at location 0. *)
Definition linux_heap : heap := [ OList [ VTuple [VInt 6; VInt 1; VInt 1] ] ].

(** The same host with a requests that predates socket options in the pool
    manager. *)
Definition legacy_world : world :=
  {| requests_build := 0x020300;
     socket := linux_socket;
     default_socket_options := VRef 0%nat |}.

(** A [socket] module that would also answer to the name the keep-alive
    constructor asks for. *)
Definition resolving_world : world :=
  {| requests_build := 0x020400;
     socket := <["IPROTO_TCP" := VInt 6]> linux_socket;
     default_socket_options := VRef 0%nat |}.

(** A client's own option list [[(IPPROTO_TCP, TCP_NODELAY, 0)]], at
    location 1. *)
Definition client_heap : heap :=
  linux_heap ++ [ OList [ VTuple [VInt 6; VInt 1; VInt 0] ] ].

Definition client_kwargs : gmap string value :=
  <["socket_options" := VRef 1%nat]> ∅.

(** The store with an adapter at location 2 that has the client's list
    stored and nothing else yet. *)
Definition adapter_heap : heap :=
  client_heap ++ [ OInstance SocketOptionsAdapter client_kwargs ].

(** ** Observations on a store *)

(** The attribute [name] of the instance at [l], if there is one. *)
Definition attr (h : heap) (l : loc) (name : string) : option value :=
  match h !! l with
  | Some (OInstance _ attrs) => attrs !! name
  | _ => None
  end.

(** The class of the instance at [l]. *)
Definition class_of (h : heap) (l : loc) : option class :=
  match h !! l with
  | Some (OInstance c _) => Some c
  | _ => None
  end.

(** The items of the list object a value refers to. *)
Definition list_items (h : heap) (v : value) : option (list value) :=
  match v with
  | VRef l => match h !! l with Some (OList xs) => Some xs | _ => None end
  | _ => None
  end.

(** The socket options a pool manager was built with. *)
Definition pool_socket_options (h : heap) (v : value) : option value :=
  match v with
  | VRef p =>
      match h !! p with
      | Some (OPoolManager _ kw) => kw !! "socket_options"
      | _ => None
      end
  | _ => None
  end.

(** ** Sequences of operations

    What a client can do with the two classes: build an adapter, and (re)build
    the pool of an adapter it holds.  An operation that raises leaves the
    store as it was at the point of the exception, and the client goes on. *)
Inductive op : Type :=
| Construct (c : class) (kwargs : gmap string value)
| InitializePool (self : loc) (connections maxsize : value)
    (block : option value).

Definition run_op (w : world) (o : op) : M unit :=
  match o with
  | Construct c kwargs => new w c kwargs ;;; ret tt
  | InitializePool self connections maxsize block =>
      init_poolmanager w self connections maxsize block
  end.

Fixpoint run_ops (w : world) (os : list op) (h : heap) : heap :=
  match os with
  | [] => h
  | o :: os => run_ops w os (run_op w o h).1
  end.

(** ** What the methods compute, in closed form *)

(** The keyword arguments the pool manager is built with, by
    [init_poolmanager] of a [SocketOptionsAdapter] whose stored options are
    [opts]. *)
Definition pool_kw (w : world) (opts maxsize block : value) : gmap string value :=
  if 0x020400 <=? requests_build w then
    <["maxsize" := maxsize]>
      (<["block" := block]> (<["socket_options" := opts]> ∅))
  else
    <["maxsize" := maxsize]> (<["block" := block]> ∅).

(** The options [SocketOptionsAdapter.__init__] resolves: the keyword
    argument when it is there, the class's default list otherwise. *)
Definition resolved_options (w : world) (kwargs : gmap string value) : value :=
  default (default_socket_options w) (kwargs !! "socket_options").

(** The four entries the constructor appends, given what the module
    answers for the protocol level and the option names. *)
Definition keepalive_entries (sol_socket so_keepalive tcp keepidle keepintvl
    keepcnt idle interval count : value) : list value :=
  [ VTuple [sol_socket; so_keepalive; VInt 1];
    VTuple [tcp; keepidle; idle];
    VTuple [tcp; keepintvl; interval];
    VTuple [tcp; keepcnt; count] ].

(** The names [TCPKeepAliveAdapter.__init__] asks the [socket] module for,
    in the order the list display of lines 88-93 evaluates them. *)
Definition keepalive_lookups : list string :=
  [ "SOL_SOCKET"; "SO_KEEPALIVE";
    "IPROTO_TCP"; "TCP_KEEPIDLE";
    "IPROTO_TCP"; "TCP_KEEPINTVL";
    "IPROTO_TCP"; "TCP_KEEPCNT" ].

(** Whether a module namespace lacks a name. *)
Definition missing (ns : gmap string value) (name : string) : bool :=
  match ns !! name with
  | Some _ => false
  | None => true
  end.

(** * Properties *)

(** ** What a step may change

    [same_options o o']: [o'] is [o], except that an instance may have had
    attributes other than [socket_options] written. *)
Definition same_options (o o' : object) : Prop :=
  match o with
  | OInstance c a =>
      exists a', o' = OInstance c a' /\
                 a' !! "socket_options" = a !! "socket_options"
  | _ => o' = o
  end.

(** Every object below [n] is kept up to [same_options]. *)
Definition stable (n : nat) (h h' : heap) : Prop :=
  forall l o, (l < n)%nat -> h !! l = Some o ->
    exists o', h' !! l = Some o' /\ same_options o o'.

Definition preserves (h h' : heap) : Prop :=
  forall l o, h !! l = Some o ->
    exists o', h' !! l = Some o' /\ same_options o o'.

(** A computation that keeps every object below [n], whatever store it
    starts in and whether or not it raises. *)
Definition keeps {A} (n : nat) (m : M A) : Prop :=
  forall h, stable n h (m h).1.

Lemma same_options_refl o : same_options o o.
Proof. destruct o; simpl; eauto. Qed.

Lemma same_options_trans o1 o2 o3 :
  same_options o1 o2 -> same_options o2 o3 -> same_options o1 o3.
Proof.
  destruct o1; simpl; try (intros ->; simpl; done).
  intros (a' & -> & E) (a'' & -> & E'). exists a''. split; [done | congruence].
Qed.

Lemma stable_refl n h : stable n h h.
Proof. intros l o _ H. exists o. split; [done | apply same_options_refl]. Qed.

Lemma stable_trans n h1 h2 h3 :
  stable n h1 h2 -> stable n h2 h3 -> stable n h1 h3.
Proof.
  intros H12 H23 l o Hl H.
  destruct (H12 l o Hl H) as (o2 & H2 & S2).
  destruct (H23 l o2 Hl H2) as (o3 & H3 & S3).
  exists o3. split; [done | by eapply same_options_trans].
Qed.

Lemma stable_preserves h h' : stable (length h) h h' <-> preserves h h'.
Proof.
  split.
  - intros S l o H. apply (S l o); [by eapply lookup_lt_Some | done].
  - intros P l o _ H. by apply P.
Qed.

Lemma preserves_refl h : preserves h h.
Proof. apply stable_preserves, stable_refl. Qed.

Lemma preserves_trans h1 h2 h3 :
  preserves h1 h2 -> preserves h2 h3 -> preserves h1 h3.
Proof.
  intros H12 H23 l o H.
  destruct (H12 l o H) as (o2 & H2 & S2).
  destruct (H23 l o2 H2) as (o3 & H3 & S3).
  exists o3. split; [done | by eapply same_options_trans].
Qed.

Lemma preserves_length h h' : preserves h h' -> (length h <= length h')%nat.
Proof.
  intros P. destruct h as [|o h] using rev_ind; [simpl; lia|].
  destruct (P (length h) o) as (o' & H' & _).
  - by apply list_lookup_middle.
  - apply lookup_lt_Some in H'. rewrite length_app. simpl. lia.
Qed.

(** *** The primitives *)

Lemma keeps_ret {A} n (a : A) : keeps n (ret a).
Proof. intros h. apply stable_refl. Qed.

Lemma keeps_raise {A} n e : keeps n (raise (A:=A) e).
Proof. intros h. apply stable_refl. Qed.

Lemma keeps_bind {A B} n (m : M A) (k : A -> M B) :
  keeps n m -> (forall a, keeps n (k a)) -> keeps n (bind m k).
Proof.
  intros Hm Hk h. unfold bind. specialize (Hm h).
  destruct (m h) as [h' [a|e]]; simpl in *; [|done].
  eapply stable_trans; [done | apply Hk].
Qed.

Lemma keeps_alloc n o : keeps n (alloc o).
Proof.
  intros h l x _ H. exists x. split; [|apply same_options_refl].
  simpl. by apply lookup_app_l_Some.
Qed.

Lemma keeps_getattr n w self name : keeps n (getattr w self name).
Proof.
  intros h. unfold getattr.
  repeat case_match; simpl; apply stable_refl.
Qed.

Lemma keeps_getattr_module n owner ns name :
  keeps n (getattr_module owner ns name).
Proof. unfold getattr_module. case_match; [apply keeps_ret | apply keeps_raise]. Qed.

Lemma keeps_getattr_class n w c name : keeps n (getattr_class w c name).
Proof. unfold getattr_class. case_match; [apply keeps_ret | apply keeps_raise]. Qed.

(** Writing an attribute other than [socket_options] keeps everything. *)
Lemma keeps_setattr n self name v :
  name <> "socket_options" -> keeps n (setattr self name v).
Proof.
  intros Hne h. unfold setattr.
  destruct (h !! self) as [[| |c a|]|] eqn:E; cbn [fst]; try apply stable_refl.
  intros l o _ H. destruct (decide (l = self)) as [->|Hl].
  - rewrite list_lookup_insert_eq by (by eapply lookup_lt_Some).
    eexists. split; [done|]. rewrite E in H. injection H as <-.
    simpl. eexists. split; [done|]. by rewrite lookup_insert_ne.
  - rewrite list_lookup_insert_ne by done.
    exists o. split; [done | apply same_options_refl].
Qed.

(** Writing any attribute of an object at or above the bound keeps
    everything below it. *)
Lemma keeps_setattr_above n self name v :
  (n <= self)%nat -> keeps n (setattr self name v).
Proof.
  intros Hn h. unfold setattr.
  destruct (h !! self) as [[| |c a|]|] eqn:E; cbn [fst]; try apply stable_refl.
  intros l o Hl H. rewrite list_lookup_insert_ne by lia.
  exists o. split; [done | apply same_options_refl].
Qed.

Lemma keeps_new_list n items : keeps n (new_list items).
Proof.
  unfold new_list. apply keeps_bind; [apply keeps_alloc|].
  intros; apply keeps_ret.
Qed.

Lemma keeps_list_add n a b : keeps n (list_add a b).
Proof.
  intros h. unfold list_add.
  repeat case_match; try apply stable_refl. apply keeps_new_list.
Qed.

Lemma keeps_PoolManager n num_pools kw : keeps n (PoolManager num_pools kw).
Proof.
  unfold PoolManager. apply keeps_bind; [apply keeps_alloc|].
  intros; apply keeps_ret.
Qed.

Create HintDb keeps.
#[local] Hint Resolve keeps_ret keeps_raise keeps_alloc keeps_getattr
  keeps_getattr_module keeps_getattr_class keeps_new_list keeps_list_add
  keeps_PoolManager : keeps.

Ltac keeps_steps :=
  repeat first
    [ apply keeps_bind; [|intros]
    | apply keeps_setattr; discriminate
    | solve [auto with keeps] ].

(** *** The methods *)

Lemma keeps_HTTPAdapter_init_poolmanager n self connections maxsize block :
  keeps n (HTTPAdapter_init_poolmanager self connections maxsize block).
Proof. unfold HTTPAdapter_init_poolmanager. keeps_steps. Qed.

Lemma keeps_SocketOptionsAdapter_init_poolmanager n w self connections maxsize block :
  keeps n (SocketOptionsAdapter_init_poolmanager w self connections maxsize block).
Proof.
  unfold SocketOptionsAdapter_init_poolmanager.
  case_match; [keeps_steps | apply keeps_HTTPAdapter_init_poolmanager].
Qed.

Lemma keeps_init_poolmanager n w self connections maxsize block :
  keeps n (init_poolmanager w self connections maxsize block).
Proof.
  intros h. unfold init_poolmanager.
  destruct (h !! self) as [[| |[] a|]|]; try apply stable_refl.
  - apply keeps_HTTPAdapter_init_poolmanager.
  - apply keeps_SocketOptionsAdapter_init_poolmanager.
  - apply keeps_SocketOptionsAdapter_init_poolmanager.
Qed.
#[local] Hint Resolve keeps_init_poolmanager : keeps.

Lemma keeps_HTTPAdapter_init n w self kwargs :
  keeps n (HTTPAdapter_init w self kwargs).
Proof. unfold HTTPAdapter_init. case_bool_decide; keeps_steps. Qed.
#[local] Hint Resolve keeps_HTTPAdapter_init : keeps.

(** The constructors write [socket_options], but only on [self]. *)
Lemma keeps_SocketOptionsAdapter_init n w self kwargs :
  (n <= self)%nat -> keeps n (SocketOptionsAdapter_init w self kwargs).
Proof.
  intros Hn. unfold SocketOptionsAdapter_init, dict_pop.
  apply keeps_bind; [auto with keeps|]. intros dflt.
  apply keeps_bind; [by apply keeps_setattr_above | auto with keeps].
Qed.

Lemma keeps_TCPKeepAliveAdapter_init n w self kwargs :
  (n <= self)%nat -> keeps n (TCPKeepAliveAdapter_init w self kwargs).
Proof.
  intros Hn. unfold TCPKeepAliveAdapter_init, dict_pop.
  do 11 (apply keeps_bind; [auto with keeps|]; intros ?).
  case_decide; [apply keeps_raise | by apply keeps_SocketOptionsAdapter_init].
Qed.

Lemma keeps_init_of n c w self kwargs :
  (n <= self)%nat -> keeps n (init_of c w self kwargs).
Proof.
  intros Hn. destruct c; simpl.
  - apply keeps_HTTPAdapter_init.
  - by apply keeps_SocketOptionsAdapter_init.
  - by apply keeps_TCPKeepAliveAdapter_init.
Qed.

(** Building an adapter leaves every object that was there before as it
    was: the new instance is the only one whose [socket_options] is set. *)
Lemma new_without_self w c kwargs (h : heap) :
  kwargs !! "self" = None ->
  new w c kwargs h
  = (init_of c w (length h) kwargs ;;; ret (VRef (length h)))
      (h ++ [OInstance c ∅]).
Proof.
  intros H. unfold new. unfold bind at 1. unfold alloc.
  by rewrite decide_False by (rewrite H; by intros [? ?]).
Qed.

Lemma new_with_self w c kwargs (h : heap) :
  is_Some (kwargs !! "self") ->
  new w c kwargs h
  = (h ++ [OInstance c ∅], Raise (TypeError_multiple_values "self")).
Proof.
  intros H. unfold new. unfold bind at 1. unfold alloc.
  by rewrite decide_True by done.
Qed.

Lemma new_Ok_without_self w c kwargs (h h1 : heap) v :
  new w c kwargs h = (h1, Ok v) -> kwargs !! "self" = None.
Proof.
  intros Hnew. destruct (kwargs !! "self") as [x|] eqn:E; [|done].
  rewrite new_with_self in Hnew by (rewrite E; eauto). done.
Qed.

Lemma new_preserves w c kwargs h : preserves h (new w c kwargs h).1.
Proof.
  destruct (kwargs !! "self") as [v|] eqn:Hself.
  { rewrite new_with_self by (rewrite Hself; eauto). cbn [fst].
    apply stable_preserves, (keeps_alloc _ (OInstance c ∅) h). }
  rewrite new_without_self by done.
  apply stable_preserves. unfold bind.
  pose proof (keeps_init_of (length h) c w (length h) kwargs (Nat.le_refl _)
                (h ++ [OInstance c ∅])) as K.
  destruct (init_of c w (length h) kwargs (h ++ [OInstance c ∅]))
    as [h' [[]|e]]; cbn [fst] in *;
    (eapply stable_trans; [apply (keeps_alloc _ (OInstance c ∅) h) | exact K]).
Qed.

Lemma run_op_preserves w o h : preserves h (run_op w o h).1.
Proof.
  destruct o as [c kwargs | self connections maxsize block]; simpl.
  - unfold bind. pose proof (new_preserves w c kwargs h) as P.
    by destruct (new w c kwargs h) as [h' [v|e]].
  - apply stable_preserves, keeps_init_poolmanager.
Qed.

Lemma run_ops_preserves w os : forall h, preserves h (run_ops w os h).
Proof.
  induction os as [|o os IH]; intros h; simpl.
  - apply preserves_refl.
  - eapply preserves_trans; [apply run_op_preserves | apply IH].
Qed.

(** What [preserves] says about the observations. *)
Lemma preserves_attr h h' l v :
  preserves h h' -> attr h l "socket_options" = Some v ->
  attr h' l "socket_options" = Some v.
Proof.
  unfold attr. intros P H.
  destruct (h !! l) as [[| |c a|]|] eqn:E; try done.
  destruct (P l _ E) as (o' & -> & (a' & -> & Ea)). congruence.
Qed.

Lemma preserves_class_of h h' l c :
  preserves h h' -> class_of h l = Some c -> class_of h' l = Some c.
Proof.
  unfold class_of. intros P H.
  destruct (h !! l) as [[| |c0 a|]|] eqn:E; try done.
  by destruct (P l _ E) as (o' & -> & (a' & -> & Ea)).
Qed.

Lemma preserves_list_items h h' v xs :
  preserves h h' -> list_items h v = Some xs -> list_items h' v = Some xs.
Proof.
  unfold list_items. intros P H. destruct v as [| | | | |l]; try done.
  destruct (h !! l) as [[xs0| | |]|] eqn:E; try done.
  by destruct (P l _ E) as (o' & -> & ->).
Qed.

Lemma preserves_pool_socket_options h h' v o :
  preserves h h' -> pool_socket_options h v = Some o ->
  pool_socket_options h' v = Some o.
Proof.
  unfold pool_socket_options. intros P H. destruct v as [| | | | |l]; try done.
  destruct (h !! l) as [[| | |n kw]|] eqn:E; try done.
  by destruct (P l _ E) as (o' & -> & ->).
Qed.

(** ** Running the methods on an instance

    The store is kept in the shape [<[self := OInstance c a]> h], with
    [self] inside [h]: the straight-line methods then run by rewriting. *)

Lemma bind_ret {A B} (a : A) (k : A -> M B) h : bind (ret a) k h = k a h.
Proof. done. Qed.

Lemma bind_raise {A B} e (k : A -> M B) h :
  bind (raise e) k h = (h, Raise e).
Proof. done. Qed.

Lemma bind_assoc {A B C} (m : M A) (f : A -> M B) (g : B -> M C) h :
  bind (bind m f) g h = bind m (fun x => bind (f x) g) h.
Proof. unfold bind. by destruct (m h) as [h' [a|e]]. Qed.

Lemma bind_setattr {B} self name v (k : unit -> M B) c a (h : heap) :
  (self < length h)%nat ->
  bind (setattr self name v) k (<[self := OInstance c a]> h)
  = k tt (<[self := OInstance c (<[name := v]> a)]> h).
Proof.
  intros Hl. unfold bind, setattr.
  by rewrite list_lookup_insert_eq, list_insert_insert_eq.
Qed.

Lemma bind_alloc {B} self x (k : loc -> M B) o (h : heap) :
  (self < length h)%nat ->
  bind (alloc x) k (<[self := o]> h)
  = k (length h) (<[self := o]> (h ++ [x])).
Proof.
  intros Hl. unfold bind, alloc. by rewrite length_insert, insert_app_l.
Qed.

Lemma bind_getattr {B} w self name (k : value -> M B) c a v (h : heap) :
  (self < length h)%nat -> a !! name = Some v ->
  bind (getattr w self name) k (<[self := OInstance c a]> h)
  = k v (<[self := OInstance c a]> h).
Proof.
  intros Hl Ha. unfold bind, getattr.
  by rewrite list_lookup_insert_eq, Ha.
Qed.

Lemma bind_PoolManager {B} self n kw (k : value -> M B) o (h : heap) :
  (self < length h)%nat ->
  bind (PoolManager n kw) k (<[self := o]> h)
  = k (VRef (length h)) (<[self := o]> (h ++ [OPoolManager n kw])).
Proof.
  intros Hl. unfold PoolManager. rewrite bind_assoc, bind_alloc by done.
  apply bind_ret.
Qed.

Lemma setattr_run self name v c a (h : heap) :
  (self < length h)%nat ->
  setattr self name v (<[self := OInstance c a]> h)
  = (<[self := OInstance c (<[name := v]> a)]> h, Ok tt).
Proof.
  intros Hl. unfold setattr.
  by rewrite list_lookup_insert_eq, list_insert_insert_eq.
Qed.

Ltac heap_len := rewrite ?length_app; simpl; lia.

Ltac run :=
  repeat first
    [ rewrite bind_setattr by heap_len
    | rewrite bind_alloc by heap_len
    | rewrite bind_PoolManager by heap_len
    | rewrite setattr_run by heap_len ];
  cbv beta.

Lemma HTTPAdapter_init_poolmanager_run self c a connections maxsize block
    (h : heap) :
  (self < length h)%nat ->
  exists a',
    HTTPAdapter_init_poolmanager self connections maxsize block
      (<[self := OInstance c a]> h)
    = (<[self := OInstance c a']>
         (h ++ [OPoolManager connections
                  (<["maxsize" := maxsize]>
                     (<["block" := default DEFAULT_POOLBLOCK block]> ∅))]),
       Ok tt)
    /\ a' !! "socket_options" = a !! "socket_options"
    /\ a' !! "poolmanager" = Some (VRef (length h)).
Proof.
  intros Hl. unfold HTTPAdapter_init_poolmanager. cbv zeta. run.
  eexists. split; [reflexivity|].
  split; [by rewrite !lookup_insert_ne by done | by rewrite lookup_insert_eq].
Qed.

Lemma SocketOptionsAdapter_init_poolmanager_run w self c a opts
    connections maxsize block (h : heap) :
  (self < length h)%nat ->
  a !! "socket_options" = Some opts ->
  exists a',
    SocketOptionsAdapter_init_poolmanager w self connections maxsize block
      (<[self := OInstance c a]> h)
    = (<[self := OInstance c a']>
         (h ++ [OPoolManager connections
                  (pool_kw w opts maxsize (default (VBool false) block))]),
       Ok tt)
    /\ a' !! "socket_options" = Some opts
    /\ a' !! "poolmanager" = Some (VRef (length h)).
Proof.
  intros Hl Ha. unfold SocketOptionsAdapter_init_poolmanager, pool_kw.
  cbv zeta. destruct (0x020400 <=? requests_build w).
  - rewrite (bind_getattr _ _ _ _ _ _ opts) by done. run.
    eexists. split; [reflexivity|].
    split; [by rewrite lookup_insert_ne by done | by rewrite lookup_insert_eq].
  - destruct (HTTPAdapter_init_poolmanager_run self c a connections maxsize
                (Some (default (VBool false) block)) h Hl)
      as (a' & -> & E1 & E2).
    exists a'. split; [done|]. split; [congruence | done].
Qed.

Lemma init_poolmanager_run w self c a opts connections maxsize block
    (h : heap) :
  c <> HTTPAdapter ->
  (self < length h)%nat ->
  a !! "socket_options" = Some opts ->
  exists a',
    init_poolmanager w self connections maxsize block
      (<[self := OInstance c a]> h)
    = (<[self := OInstance c a']>
         (h ++ [OPoolManager connections
                  (pool_kw w opts maxsize (default (VBool false) block))]),
       Ok tt)
    /\ a' !! "socket_options" = Some opts
    /\ a' !! "poolmanager" = Some (VRef (length h)).
Proof.
  intros Hc Hl Ha. unfold init_poolmanager.
  rewrite list_lookup_insert_eq by done.
  destruct c; [done| |];
    by apply SocketOptionsAdapter_init_poolmanager_run.
Qed.

(** The base constructor on an instance of one of the two adapters whose
    options are already stored: two dictionaries and the pool manager are
    allocated, in this order. *)
Lemma HTTPAdapter_init_run w self c a opts kwargs (h : heap) :
  c <> HTTPAdapter ->
  (self < length h)%nat ->
  a !! "socket_options" = Some opts ->
  dom kwargs ⊆ HTTPAdapter_params ->
  exists a',
    HTTPAdapter_init w self kwargs (<[self := OInstance c a]> h)
    = (<[self := OInstance c a']>
         (h ++ [ODict ∅] ++ [ODict ∅] ++
            [OPoolManager (default DEFAULT_POOLSIZE (kwargs !! "pool_connections"))
               (pool_kw w opts
                  (default DEFAULT_POOLSIZE (kwargs !! "pool_maxsize"))
                  (default DEFAULT_POOLBLOCK (kwargs !! "pool_block")))]),
       Ok tt)
    /\ a' !! "socket_options" = Some opts
    /\ a' !! "poolmanager" = Some (VRef (length h + 2)).
Proof.
  intros Hc Hl Ha Hdom. unfold HTTPAdapter_init.
  rewrite bool_decide_eq_true_2 by done. cbv zeta. run.
  match goal with
  | |- context [init_poolmanager w self ?pc ?pm ?pb (<[self := OInstance c ?a0]> ?h0)] =>
      destruct (init_poolmanager_run w self c a0 opts pc pm pb h0 Hc)
        as (a' & E & E1 & E2);
      [heap_len | by rewrite !lookup_insert_ne by done |]
  end.
  exists a'. rewrite E. rewrite <- !(assoc_L (++)). split; [done|].
  split; [done|]. rewrite E2, !length_app. simpl. do 2 f_equal. lia.
Qed.

Lemma HTTPAdapter_init_unexpected w self kwargs (h : heap) :
  ~ dom kwargs ⊆ HTTPAdapter_params ->
  HTTPAdapter_init w self kwargs h = (h, Raise TypeError_unexpected_keyword).
Proof.
  intros Hdom. unfold HTTPAdapter_init.
  by rewrite bool_decide_eq_false_2 by done.
Qed.

Lemma SocketOptionsAdapter_init_run w self c kwargs (h : heap) :
  c <> HTTPAdapter ->
  (self < length h)%nat ->
  exists a',
    SocketOptionsAdapter_init w self kwargs (<[self := OInstance c ∅]> h)
    = (if bool_decide (dom (delete "socket_options" kwargs) ⊆ HTTPAdapter_params)
       then
         (<[self := OInstance c a']>
            (h ++ [ODict ∅] ++ [ODict ∅] ++
               [OPoolManager
                  (default DEFAULT_POOLSIZE (kwargs !! "pool_connections"))
                  (pool_kw w (resolved_options w kwargs)
                     (default DEFAULT_POOLSIZE (kwargs !! "pool_maxsize"))
                     (default DEFAULT_POOLBLOCK (kwargs !! "pool_block")))]),
          Ok tt)
       else
         (<[self := OInstance c a']> h, Raise TypeError_unexpected_keyword))
    /\ a' !! "socket_options" = Some (resolved_options w kwargs)
    /\ (dom (delete "socket_options" kwargs) ⊆ HTTPAdapter_params ->
        a' !! "poolmanager" = Some (VRef (length h + 2))).
Proof.
  intros Hc Hl. unfold SocketOptionsAdapter_init, dict_pop.
  unfold bind at 1. unfold getattr at 1.
  rewrite list_lookup_insert_eq by done. rewrite lookup_empty.
  replace (class_attr w c "default_options")
    with (Some (default_socket_options w)) by (by destruct c).
  fold (resolved_options w kwargs). run.
  case_bool_decide as Hdom.
  - destruct (HTTPAdapter_init_run w self c
                (<["socket_options" := resolved_options w kwargs]> ∅)
                (resolved_options w kwargs)
                (delete "socket_options" kwargs) h Hc Hl)
      as (a' & E & E1 & E2); [by rewrite lookup_insert_eq | done |].
    exists a'. rewrite E, !lookup_delete_ne by done. done.
  - rewrite HTTPAdapter_init_unexpected by done.
    eexists. split; [reflexivity|]. split; [by rewrite lookup_insert_eq | done].
Qed.

(** *** Reading the resulting store *)

Lemma attr_insert (h : heap) self c a name :
  (self < length h)%nat ->
  attr (<[self := OInstance c a]> h) self name = a !! name.
Proof. intros Hl. unfold attr. by rewrite list_lookup_insert_eq. Qed.

Lemma class_of_insert (h : heap) self c a :
  (self < length h)%nat ->
  class_of (<[self := OInstance c a]> h) self = Some c.
Proof. intros Hl. unfold class_of. by rewrite list_lookup_insert_eq. Qed.

Lemma lookup_insert_new (h : heap) self o x tl :
  (self < length h)%nat ->
  (<[self := o]> (h ++ x :: tl)) !! length h = Some x.
Proof.
  intros Hl. rewrite list_lookup_insert_ne by lia.
  by apply list_lookup_middle.
Qed.

Lemma lookup_insert_old (h : heap) self o tl l x :
  l <> self -> h !! l = Some x -> (<[self := o]> (h ++ tl)) !! l = Some x.
Proof.
  intros Hne H. rewrite list_lookup_insert_ne by done.
  by apply lookup_app_l_Some.
Qed.

(** *** [init_poolmanager] on any store *)

Lemma init_poolmanager_spec w self c a opts connections maxsize block
    (h : heap) :
  h !! self = Some (OInstance c a) ->
  c <> HTTPAdapter ->
  a !! "socket_options" = Some opts ->
  exists h',
    init_poolmanager w self connections maxsize block h = (h', Ok tt)
    /\ h' !! length h
        = Some (OPoolManager connections
                  (pool_kw w opts maxsize (default (VBool false) block)))
    /\ attr h' self "poolmanager" = Some (VRef (length h))
    /\ attr h' self "socket_options" = Some opts
    /\ class_of h' self = Some c
    /\ length h' = S (length h)
    /\ preserves h h'.
Proof.
  intros H Hc Ha.
  assert (self < length h)%nat as Hl by (by eapply lookup_lt_Some).
  pose proof (keeps_init_poolmanager (length h) w self connections maxsize
                block h) as K.
  destruct (init_poolmanager_run w self c a opts connections maxsize block h
              Hc Hl Ha) as (a' & E & E1 & E2).
  rewrite (list_insert_id h self _ H) in E.
  rewrite E in *. eexists. split; [reflexivity|].
  split; [by apply lookup_insert_new|].
  split; [by rewrite attr_insert by heap_len|].
  split; [by rewrite attr_insert by heap_len|].
  split; [by rewrite class_of_insert by heap_len|].
  split; [rewrite length_insert, length_app; simpl; lia|].
  by apply stable_preserves.
Qed.

(** The fallback, for an instance of any class and whatever it has
    stored. *)
Lemma init_poolmanager_fallback w self c a connections maxsize block
    (h : heap) :
  requests_build w < 0x020400 ->
  h !! self = Some (OInstance c a) ->
  init_poolmanager w self connections maxsize block h
  = HTTPAdapter_init_poolmanager self connections maxsize
      (Some (default DEFAULT_POOLBLOCK block)) h.
Proof.
  intros Hb H. unfold init_poolmanager. rewrite H.
  unfold SocketOptionsAdapter_init_poolmanager.
  replace (0x020400 <=? requests_build w) with false by (symmetry; lia).
  by destruct c, block.
Qed.

Lemma HTTPAdapter_init_poolmanager_spec self c a connections maxsize block
    (h : heap) :
  h !! self = Some (OInstance c a) ->
  exists h',
    HTTPAdapter_init_poolmanager self connections maxsize block h = (h', Ok tt)
    /\ h' !! length h
        = Some (OPoolManager connections
                  (<["maxsize" := maxsize]>
                     (<["block" := default DEFAULT_POOLBLOCK block]> ∅)))
    /\ attr h' self "poolmanager" = Some (VRef (length h))
    /\ attr h' self "socket_options" = a !! "socket_options"
    /\ length h' = S (length h).
Proof.
  intros H.
  assert (self < length h)%nat as Hl by (by eapply lookup_lt_Some).
  destruct (HTTPAdapter_init_poolmanager_run self c a connections maxsize
              block h Hl) as (a' & E & E1 & E2).
  rewrite (list_insert_id h self _ H) in E.
  rewrite E. eexists. split; [reflexivity|].
  split; [by apply lookup_insert_new|].
  split; [by rewrite attr_insert by heap_len|].
  split; [by rewrite attr_insert by heap_len|].
  rewrite length_insert, length_app; simpl; lia.
Qed.

(** *** Construction of a [SocketOptionsAdapter] *)

Lemma new_SocketOptionsAdapter_run w kwargs (h : heap) :
  kwargs !! "self" = None ->
  exists h' r,
    new w SocketOptionsAdapter kwargs h = (h', r)
    /\ attr h' (length h) "socket_options" = Some (resolved_options w kwargs)
    /\ class_of h' (length h) = Some SocketOptionsAdapter
    /\ preserves h h'
    /\ if bool_decide (dom (delete "socket_options" kwargs) ⊆ HTTPAdapter_params)
       then
         r = Ok (VRef (length h))
         /\ attr h' (length h) "poolmanager" = Some (VRef (length h + 3))
         /\ h' !! (length h + 3)%nat
            = Some (OPoolManager
                      (default DEFAULT_POOLSIZE (kwargs !! "pool_connections"))
                      (pool_kw w (resolved_options w kwargs)
                         (default DEFAULT_POOLSIZE (kwargs !! "pool_maxsize"))
                         (default DEFAULT_POOLBLOCK (kwargs !! "pool_block"))))
       else r = Raise TypeError_unexpected_keyword.
Proof.
  intros Hns.
  pose proof (new_preserves w SocketOptionsAdapter kwargs h) as P.
  revert P. rewrite new_without_self by done. simpl init_of.
  assert ((h ++ [OInstance SocketOptionsAdapter ∅]) !! length h
          = Some (OInstance SocketOptionsAdapter ∅)) as Hself
    by (by apply list_lookup_middle).
  destruct (SocketOptionsAdapter_init_run w (length h) SocketOptionsAdapter
              kwargs (h ++ [OInstance SocketOptionsAdapter ∅]))
    as (a' & E & E1 & E2); [done | heap_len |].
  rewrite (list_insert_id _ _ _ Hself) in E.
  unfold bind. rewrite E.
  case_bool_decide as Hdom; cbn [fst]; intros P; do 2 eexists;
    (split; [reflexivity|]);
    (split; [by rewrite attr_insert by heap_len|]);
    (split; [by rewrite class_of_insert by heap_len|]);
    (split; [done|]); [|done].
  split; [done|].
  split.
  - rewrite attr_insert by heap_len. rewrite E2 by done.
    rewrite length_app. simpl. do 2 f_equal. lia.
  - rewrite list_lookup_insert_ne by lia.
    rewrite !(assoc_L (++)). apply list_lookup_middle.
    rewrite !length_app. simpl. lia.
Qed.

Lemma pool_kw_supported w opts maxsize block :
  0x020400 <= requests_build w ->
  pool_kw w opts maxsize block
  = <["maxsize" := maxsize]>
      (<["block" := block]> (<["socket_options" := opts]> ∅)).
Proof.
  intros Hb. unfold pool_kw.
  by replace (0x020400 <=? requests_build w) with true by (symmetry; lia).
Qed.

Lemma pool_kw_fallback w opts maxsize block :
  requests_build w < 0x020400 ->
  pool_kw w opts maxsize block
  = <["maxsize" := maxsize]> (<["block" := block]> ∅).
Proof.
  intros Hb. unfold pool_kw.
  by replace (0x020400 <=? requests_build w) with false by (symmetry; lia).
Qed.

Lemma pool_kw_socket_options w opts maxsize block :
  pool_kw w opts maxsize block !! "socket_options"
  = if 0x020400 <=? requests_build w then Some opts else None.
Proof. unfold pool_kw. by case_match. Qed.

(** A successfully built [SocketOptionsAdapter]: where it lives, what it
    stores, the pool manager its constructor made, and what every later
    [init_poolmanager] on it does, whatever the client did in between. *)
Lemma new_SocketOptionsAdapter_Ok w kwargs (h h1 : heap) a :
  new w SocketOptionsAdapter kwargs h = (h1, Ok (VRef a)) ->
  let opts := resolved_options w kwargs in
  a = length h
  /\ attr h1 a "socket_options" = Some opts
  /\ preserves h h1
  /\ (exists p n kw,
        attr h1 a "poolmanager" = Some (VRef p)
        /\ h1 !! p = Some (OPoolManager n kw)
        /\ kw !! "socket_options"
           = if 0x020400 <=? requests_build w then Some opts else None)
  /\ forall os connections maxsize block,
        exists h3,
          init_poolmanager w a connections maxsize block (run_ops w os h1)
          = (h3, Ok tt)
          /\ h3 !! length (run_ops w os h1)
             = Some (OPoolManager connections
                       (pool_kw w opts maxsize (default (VBool false) block)))
          /\ attr h3 a "poolmanager" = Some (VRef (length (run_ops w os h1)))
          /\ attr h3 a "socket_options" = Some opts
          /\ preserves h h3.
Proof.
  intros Hnew opts.
  destruct (new_SocketOptionsAdapter_run w kwargs h
              (new_Ok_without_self _ _ _ _ _ _ Hnew))
    as (h' & r & E & Ha & Hc & P & Hr).
  rewrite Hnew in E. injection E as <- <-.
  case_bool_decide; [|done]. destruct Hr as (Er & Hp & Hpm).
  injection Er as ->.
  split; [done|]. split; [done|]. split; [done|]. split.
  { do 3 eexists. split; [done|]. split; [done|].
    apply pool_kw_socket_options. }
  intros os connections maxsize block.
  pose proof (run_ops_preserves w os h1) as P2.
  pose proof (preserves_attr _ _ _ _ P2 Ha) as Ha2.
  pose proof (preserves_class_of _ _ _ _ P2 Hc) as Hc2.
  unfold attr in Ha2. unfold class_of in Hc2.
  destruct (run_ops w os h1 !! length h) as [[| |c a2|]|] eqn:E2; try done.
  injection Hc2 as ->.
  destruct (init_poolmanager_spec w (length h) SocketOptionsAdapter a2 opts
              connections maxsize block (run_ops w os h1) E2)
    as (h3 & E3 & Hpm3 & Hp3 & Ha3 & _ & _ & P3); [done | done |].
  exists h3. repeat split; try done.
  eapply preserves_trans; [exact P|].
  eapply preserves_trans; [exact P2 | exact P3].
Qed.

(** * The claims *)

(** ** SocketOptionsAdapter *)

(** C2.  A [SocketOptionsAdapter] built with [socket_options=L] on a
    requests that supports socket options ([__build__ >= 0x020400]) stores
    [L]; the pool manager made while constructing and the one made by every
    later [init_poolmanager], whatever its arguments and whatever the client
    did before, is built with [socket_options=L], the very same value; and
    a list that [L] refers to still has the items it had when passed. *)
Theorem explicit_options_reach_pool_manager w L kwargs (h h1 : heap) a :
  0x020400 <= requests_build w ->
  kwargs !! "socket_options" = Some L ->
  new w SocketOptionsAdapter kwargs h = (h1, Ok (VRef a)) ->
  attr h1 a "socket_options" = Some L
  /\ pool_socket_options h1 (default VNone (attr h1 a "poolmanager")) = Some L
  /\ forall os connections maxsize block,
       exists h3,
         init_poolmanager w a connections maxsize block (run_ops w os h1)
         = (h3, Ok tt)
         /\ attr h3 a "poolmanager" = Some (VRef (length (run_ops w os h1)))
         /\ h3 !! length (run_ops w os h1)
            = Some (OPoolManager connections
                      (<["maxsize" := maxsize]>
                         (<["block" := default (VBool false) block]>
                            (<["socket_options" := L]> ∅))))
         /\ attr h3 a "socket_options" = Some L
         /\ forall xs, list_items h L = Some xs -> list_items h3 L = Some xs.
Proof.
  intros Hb HL Hnew.
  destruct (new_SocketOptionsAdapter_Ok w kwargs h h1 a Hnew)
    as (-> & Ha & P & (p & n & kw & Hp & Hpm & Hkw) & Hcalls).
  unfold resolved_options in *. rewrite HL in *. simpl in *.
  replace (0x020400 <=? requests_build w) with true in Hkw by (symmetry; lia).
  split; [done|]. split.
  { rewrite Hp. simpl. by rewrite Hpm. }
  intros os connections maxsize block.
  destruct (Hcalls os connections maxsize block)
    as (h3 & E3 & Hpm3 & Hp3 & Ha3 & P3).
  rewrite pool_kw_supported in Hpm3 by done.
  exists h3. repeat split; try done.
  intros xs Hxs. by eapply preserves_list_items.
Qed.

(** C3, as amended.  A [SocketOptionsAdapter] built without
    [socket_options] stores the transport library's default list itself
    (the same object, whose items are left as they were).  Every pool
    manager [init_poolmanager] then makes, the constructor's included, is
    built with that list when requests supports socket options
    ([__build__ >= 0x020400]), and without socket options otherwise. *)
Theorem omitted_options_are_the_defaults w kwargs (h h1 : heap) a :
  kwargs !! "socket_options" = None ->
  new w SocketOptionsAdapter kwargs h = (h1, Ok (VRef a)) ->
  attr h1 a "socket_options" = Some (default_socket_options w)
  /\ (forall xs, list_items h (default_socket_options w) = Some xs ->
                 list_items h1 (default_socket_options w) = Some xs)
  /\ pool_socket_options h1 (default VNone (attr h1 a "poolmanager"))
     = (if 0x020400 <=? requests_build w
        then Some (default_socket_options w) else None)
  /\ forall os connections maxsize block,
       exists h3 kw,
         init_poolmanager w a connections maxsize block (run_ops w os h1)
         = (h3, Ok tt)
         /\ attr h3 a "poolmanager" = Some (VRef (length (run_ops w os h1)))
         /\ h3 !! length (run_ops w os h1) = Some (OPoolManager connections kw)
         /\ kw !! "socket_options"
            = (if 0x020400 <=? requests_build w
               then Some (default_socket_options w) else None)
         /\ attr h3 a "socket_options" = Some (default_socket_options w)
         /\ forall xs, list_items h (default_socket_options w) = Some xs ->
                       list_items h3 (default_socket_options w) = Some xs.
Proof.
  intros HL Hnew.
  destruct (new_SocketOptionsAdapter_Ok w kwargs h h1 a Hnew)
    as (-> & Ha & P & (p & n & kw & Hp & Hpm & Hkw) & Hcalls).
  unfold resolved_options in *. rewrite HL in *. simpl in *.
  split; [done|]. split.
  { intros xs Hxs. by eapply preserves_list_items. }
  split.
  { rewrite Hp. simpl. by rewrite Hpm. }
  intros os connections maxsize block.
  destruct (Hcalls os connections maxsize block)
    as (h3 & E3 & Hpm3 & Hp3 & Ha3 & P3).
  exists h3. eexists. repeat split; try done.
  - apply pool_kw_socket_options.
  - intros xs Hxs. by eapply preserves_list_items.
Qed.

(** C5.  On a requests that predates socket options
    ([__build__ < 0x020400]), [init_poolmanager] on an instance of either
    adapter is the base class's [init_poolmanager] with the same connection
    count, size and block flag: it returns without raising, the new pool
    manager carries no socket options, and the stored options stay as they
    are. *)
Theorem fallback_is_default_pool_initialization w self c a connections maxsize
    block (h : heap) :
  requests_build w < 0x020400 ->
  h !! self = Some (OInstance c a) ->
  init_poolmanager w self connections maxsize block h
  = HTTPAdapter_init_poolmanager self connections maxsize
      (Some (default DEFAULT_POOLBLOCK block)) h
  /\ exists h',
       init_poolmanager w self connections maxsize block h = (h', Ok tt)
       /\ attr h' self "poolmanager" = Some (VRef (length h))
       /\ h' !! length h
          = Some (OPoolManager connections
                    (<["maxsize" := maxsize]>
                       (<["block" := default DEFAULT_POOLBLOCK block]> ∅)))
       /\ pool_socket_options h' (VRef (length h)) = None
       /\ attr h' self "socket_options" = a !! "socket_options".
Proof.
  intros Hb H.
  pose proof (init_poolmanager_fallback w self c a connections maxsize block
                h Hb H) as E.
  split; [done|]. rewrite E.
  destruct (HTTPAdapter_init_poolmanager_spec self c a connections maxsize
              (Some (default DEFAULT_POOLBLOCK block)) h H)
    as (h' & E' & Hpm & Hp & Ha & _).
  exists h'. simpl in Hpm. repeat split; try done.
  unfold pool_socket_options. by rewrite Hpm.
Qed.

(** C6, as amended.  Two calls of [init_poolmanager] with the same
    arguments on an adapter both return; each allocates a pool manager of
    its own, at different locations, built with the same keyword arguments;
    after the second call the instance's [poolmanager] is the second one and
    the first is still in the store.  Both carry the stored options when
    requests supports them ([__build__ >= 0x020400]) and neither does
    otherwise. *)
Theorem init_poolmanager_twice w self c a opts connections maxsize block
    (h : heap) :
  h !! self = Some (OInstance c a) ->
  c <> HTTPAdapter ->
  a !! "socket_options" = Some opts ->
  exists h1 h2 p1 p2 kw,
    init_poolmanager w self connections maxsize block h = (h1, Ok tt)
    /\ init_poolmanager w self connections maxsize block h1 = (h2, Ok tt)
    /\ attr h1 self "poolmanager" = Some (VRef p1)
    /\ attr h2 self "poolmanager" = Some (VRef p2)
    /\ p1 <> p2
    /\ h !! p1 = None /\ h1 !! p2 = None
    /\ h2 !! p1 = Some (OPoolManager connections kw)
    /\ h2 !! p2 = Some (OPoolManager connections kw)
    /\ kw !! "socket_options"
       = (if 0x020400 <=? requests_build w then Some opts else None)
    /\ attr h2 self "socket_options" = Some opts.
Proof.
  intros H Hc Ha.
  destruct (init_poolmanager_spec w self c a opts connections maxsize block
              h H Hc Ha) as (h1 & E1 & Hpm1 & Hp1 & Ha1 & Hc1 & Hl1 & P1).
  unfold attr in Ha1. unfold class_of in Hc1.
  destruct (h1 !! self) as [[| |c1 a1|]|] eqn:H1; try done.
  injection Hc1 as ->.
  destruct (init_poolmanager_spec w self c a1 opts connections maxsize block
              h1 H1 Hc Ha1) as (h2 & E2 & Hpm2 & Hp2 & Ha2 & Hc2 & Hl2 & P2).
  exists h1, h2, (length h), (length h1). eexists.
  split; [done|]. split; [done|].
  split; [exact Hp1|]. split; [exact Hp2|].
  split; [lia|].
  split; [by apply lookup_ge_None_2|]. split; [by apply lookup_ge_None_2|].
  split.
  { destruct (P2 _ _ Hpm1) as (o' & -> & ->). done. }
  split; [done|]. split; [apply pool_kw_socket_options | done].
Qed.

(** C7.  Whatever the client does next with the two classes (building
    further adapters, calling [init_poolmanager] on any instance, any number
    of times, with any arguments, raising or not), the [socket_options] an
    instance has stored stay the same value, and a list they refer to keeps
    its items. *)
Theorem stored_options_invariant w os (h : heap) a v :
  attr h a "socket_options" = Some v ->
  attr (run_ops w os h) a "socket_options" = Some v
  /\ class_of (run_ops w os h) a = class_of h a
  /\ forall xs, list_items h v = Some xs ->
                list_items (run_ops w os h) v = Some xs.
Proof.
  intros Ha. pose proof (run_ops_preserves w os h) as P.
  split; [by eapply preserves_attr|]. split.
  - unfold attr in Ha. destruct (class_of h a) as [c|] eqn:Hc.
    + by eapply preserves_class_of.
    + unfold class_of in Hc. by destruct (h !! a) as [[]|].
  - intros xs Hxs. by eapply preserves_list_items.
Qed.


(** ** TCPKeepAliveAdapter *)

(** The constructor asks the [socket] module for [IPROTO_TCP].  On a module
    that has [SOL_SOCKET] and [SO_KEEPALIVE] but no attribute of that name,
    it raises there, before anything is stored. *)
Lemma TCPKeepAliveAdapter_init_misspelt w self kwargs (h : heap) :
  is_Some (socket w !! "SOL_SOCKET") ->
  is_Some (socket w !! "SO_KEEPALIVE") ->
  socket w !! "IPROTO_TCP" = None ->
  TCPKeepAliveAdapter_init w self kwargs h
  = (h, Raise (AttributeError "socket" "IPROTO_TCP")).
Proof.
  intros [sol Hsol] [ka Hka] Htcp.
  unfold TCPKeepAliveAdapter_init, dict_pop, getattr_class, getattr_module.
  simpl class_attr. cbv zeta. rewrite Hsol, Hka, Htcp. done.
Qed.

Lemma new_TCPKeepAliveAdapter_misspelt w kwargs (h : heap) :
  kwargs !! "self" = None ->
  is_Some (socket w !! "SOL_SOCKET") ->
  is_Some (socket w !! "SO_KEEPALIVE") ->
  socket w !! "IPROTO_TCP" = None ->
  new w TCPKeepAliveAdapter kwargs h
  = (h ++ [OInstance TCPKeepAliveAdapter ∅],
     Raise (AttributeError "socket" "IPROTO_TCP")).
Proof.
  intros Hns Hsol Hka Htcp. rewrite new_without_self by done.
  simpl init_of. unfold bind.
  by rewrite TCPKeepAliveAdapter_init_misspelt.
Qed.

Lemma linux_socket_misspelt :
  is_Some (linux_socket !! "SOL_SOCKET")
  /\ is_Some (linux_socket !! "SO_KEEPALIVE")
  /\ linux_socket !! "IPROTO_TCP" = None
  /\ linux_socket !! "IPPROTO_TCP" = Some (VInt 6).
Proof. vm_compute. repeat split; eauto. Qed.

Lemma new_TCPKeepAliveAdapter_linux kwargs (h : heap) :
  kwargs !! "self" = None ->
  new linux_world TCPKeepAliveAdapter kwargs h
  = (h ++ [OInstance TCPKeepAliveAdapter ∅],
     Raise (AttributeError "socket" "IPROTO_TCP")).
Proof.
  intros Hns. destruct linux_socket_misspelt as (H1 & H2 & H3 & _).
  by apply new_TCPKeepAliveAdapter_misspelt.
Qed.

(** On a [socket] module that does answer to every name asked for, the
    constructor gets as far as the call of the parent constructor. *)
Lemma TCPKeepAliveAdapter_init_resolved w self kwargs (h : heap)
    sol_socket so_keepalive tcp keepidle keepintvl keepcnt ld ds :
  socket w !! "SOL_SOCKET" = Some sol_socket ->
  socket w !! "SO_KEEPALIVE" = Some so_keepalive ->
  socket w !! "IPROTO_TCP" = Some tcp ->
  socket w !! "TCP_KEEPIDLE" = Some keepidle ->
  socket w !! "TCP_KEEPINTVL" = Some keepintvl ->
  socket w !! "TCP_KEEPCNT" = Some keepcnt ->
  default_socket_options w = VRef ld ->
  h !! ld = Some (OList ds) ->
  let rest := delete "count" (delete "interval" (delete "idle" kwargs)) in
  let extra :=
    keepalive_entries sol_socket so_keepalive tcp keepidle keepintvl keepcnt
      (default (VInt 60) (kwargs !! "idle"))
      (default (VInt 20) (kwargs !! "interval"))
      (default (VInt 5) (kwargs !! "count")) in
  let h' := h ++ [OList extra] ++ [OList (ds ++ extra)] in
  TCPKeepAliveAdapter_init w self kwargs h
  = if decide (is_Some (kwargs !! "socket_options")) then
      (h', Raise (TypeError_multiple_values "socket_options"))
    else
      SocketOptionsAdapter_init w self
        (<["socket_options" := VRef (length h + 1)%nat]> rest) h'.
Proof.
  intros Hsol Hka Htcp Hidle Hintvl Hcnt Hd Hld rest extra h'.
  unfold TCPKeepAliveAdapter_init, dict_pop, getattr_class, getattr_module.
  simpl class_attr. cbv zeta.
  rewrite Hsol, Hka, Htcp, Hidle, Hintvl, Hcnt, Hd.
  rewrite !bind_ret. unfold new_list at 1. rewrite bind_assoc.
  unfold bind at 1. unfold alloc at 1. rewrite bind_ret.
  rewrite !lookup_delete_ne by done.
  fold (keepalive_entries sol_socket so_keepalive tcp keepidle keepintvl keepcnt
          (default (VInt 60) (kwargs !! "idle"))
          (default (VInt 20) (kwargs !! "interval"))
          (default (VInt 5) (kwargs !! "count"))).
  fold extra.
  unfold bind at 1. unfold list_add.
  rewrite (lookup_app_l_Some _ _ _ _ Hld).
  rewrite list_lookup_middle by done.
  unfold new_list, bind, alloc, ret.
  rewrite length_app, <- (assoc_L (++)). simpl length.
  fold rest. fold h'.
  by case_decide.
Qed.

(** None of the base constructor's keywords is [self]. *)
Lemma params_exclude_self (kwargs : gmap string value) :
  dom kwargs ⊆ HTTPAdapter_params -> kwargs !! "self" = None.
Proof.
  intros Hdom. destruct (kwargs !! "self") as [v|] eqn:E; [|done].
  assert ("self" ∈ dom kwargs) as Hin by (apply elem_of_dom; eauto).
  apply Hdom in Hin. unfold HTTPAdapter_params in Hin.
  rewrite !elem_of_union, !elem_of_singleton in Hin.
  by destruct Hin as [[[|]|]|].
Qed.

Lemma base_keywords_exclude_self (kwargs : gmap string value) :
  dom (delete "count" (delete "interval" (delete "idle" kwargs)))
    ⊆ HTTPAdapter_params ->
  kwargs !! "self" = None.
Proof.
  intros Hdom. apply params_exclude_self in Hdom.
  by rewrite !lookup_delete_ne in Hdom by done.
Qed.

(** What the constructor would build on such a module: a new list, the
    default entries followed by the four keep-alive entries, stored on the
    instance and handed on to the pool manager; the default list itself is
    left alone. *)
Lemma new_TCPKeepAliveAdapter_resolved w kwargs (h : heap)
    sol_socket so_keepalive tcp keepidle keepintvl keepcnt ld ds :
  socket w !! "SOL_SOCKET" = Some sol_socket ->
  socket w !! "SO_KEEPALIVE" = Some so_keepalive ->
  socket w !! "IPROTO_TCP" = Some tcp ->
  socket w !! "TCP_KEEPIDLE" = Some keepidle ->
  socket w !! "TCP_KEEPINTVL" = Some keepintvl ->
  socket w !! "TCP_KEEPCNT" = Some keepcnt ->
  default_socket_options w = VRef ld ->
  h !! ld = Some (OList ds) ->
  kwargs !! "socket_options" = None ->
  dom (delete "count" (delete "interval" (delete "idle" kwargs)))
    ⊆ HTTPAdapter_params ->
  exists h1 lo,
    new w TCPKeepAliveAdapter kwargs h = (h1, Ok (VRef (length h)))
    /\ attr h1 (length h) "socket_options" = Some (VRef lo)
    /\ h1 !! lo
       = Some (OList (ds ++ keepalive_entries sol_socket so_keepalive tcp
                               keepidle keepintvl keepcnt
                               (default (VInt 60) (kwargs !! "idle"))
                               (default (VInt 20) (kwargs !! "interval"))
                               (default (VInt 5) (kwargs !! "count"))))
    /\ h1 !! ld = Some (OList ds)
    /\ exists p n kw,
         attr h1 (length h) "poolmanager" = Some (VRef p)
         /\ h1 !! p = Some (OPoolManager n kw)
         /\ kw !! "socket_options"
            = if 0x020400 <=? requests_build w then Some (VRef lo) else None.
Proof.
  intros Hsol Hka Htcp Hidle Hintvl Hcnt Hd Hld Hso Hdom.
  assert (ld < length h)%nat as Hlt by (by eapply lookup_lt_Some).
  pose proof (base_keywords_exclude_self _ Hdom) as Hns.
  rewrite new_without_self by done. simpl init_of. unfold bind.
  erewrite TCPKeepAliveAdapter_init_resolved; try done;
    [|by apply lookup_app_l_Some].
  rewrite decide_False by (rewrite Hso; by intros [? ?]).
  set (rest := delete "count" (delete "interval" (delete "idle" kwargs))) in *.
  set (extra := keepalive_entries _ _ _ _ _ _ _ _ _).
  set (h' := (h ++ [OInstance TCPKeepAliveAdapter ∅]) ++ _ ++ _).
  set (lo := (length (h ++ [OInstance TCPKeepAliveAdapter ∅]) + 1)%nat).
  assert (h' !! length h = Some (OInstance TCPKeepAliveAdapter ∅)) as Hself.
  { subst h'. apply lookup_app_l_Some. by apply list_lookup_middle. }
  assert (length h < length h')%nat as Hl by (by eapply lookup_lt_Some).
  assert (h' !! lo = Some (OList (ds ++ extra))) as Hlo.
  { subst h' lo. rewrite app_assoc. apply list_lookup_middle.
    rewrite !length_app. simpl. lia. }
  assert (rest !! "socket_options" = None) as Hrest
    by (subst rest; by rewrite !lookup_delete_ne by done).
  destruct (SocketOptionsAdapter_init_run w (length h) TCPKeepAliveAdapter
              (<["socket_options" := VRef lo]> rest) h')
    as (a' & E & Ea & Ep); [done | done |].
  rewrite (list_insert_id _ _ _ Hself) in E. rewrite E. clear E.
  rewrite delete_insert_id in * by done.
  rewrite bool_decide_eq_true_2 in * by done.
  unfold resolved_options in *. rewrite lookup_insert_eq in *. simpl in *.
  assert (lo <> length h) as Hne by (subst lo; rewrite length_app; simpl; lia).
  do 2 eexists. split; [reflexivity|].
  split; [by rewrite attr_insert by heap_len|].
  split; [by apply lookup_insert_old|].
  split.
  { apply lookup_insert_old; [lia|]. subst h'.
    by do 2 apply lookup_app_l_Some. }
  do 3 eexists. split; [rewrite attr_insert by heap_len; by apply Ep|].
  split.
  - rewrite list_lookup_insert_ne by lia.
    rewrite lookup_app_r by lia.
    by replace (length h' + 2 - length h')%nat with 2%nat by lia.
  - apply pool_kw_socket_options.
Qed.

(** X10.  On a [socket] module that answers to every name asked for, a
    [socket_options] argument of the caller's (with no keyword named [self]
    beside it) collides with the one the constructor passes itself: the
    call of the parent constructor raises the duplicate-keyword
    [TypeError]. *)
Lemma new_TCPKeepAliveAdapter_duplicate w kwargs (h : heap) v
    sol_socket so_keepalive tcp keepidle keepintvl keepcnt ld ds :
  kwargs !! "self" = None ->
  socket w !! "SOL_SOCKET" = Some sol_socket ->
  socket w !! "SO_KEEPALIVE" = Some so_keepalive ->
  socket w !! "IPROTO_TCP" = Some tcp ->
  socket w !! "TCP_KEEPIDLE" = Some keepidle ->
  socket w !! "TCP_KEEPINTVL" = Some keepintvl ->
  socket w !! "TCP_KEEPCNT" = Some keepcnt ->
  default_socket_options w = VRef ld ->
  h !! ld = Some (OList ds) ->
  kwargs !! "socket_options" = Some v ->
  (new w TCPKeepAliveAdapter kwargs h).2
  = Raise (TypeError_multiple_values "socket_options").
Proof.
  intros Hns Hsol Hka Htcp Hidle Hintvl Hcnt Hd Hld Hso.
  rewrite new_without_self by done. simpl init_of. unfold bind.
  erewrite TCPKeepAliveAdapter_init_resolved; try done;
    [|by apply lookup_app_l_Some].
  by rewrite decide_True by (rewrite Hso; eauto).
Qed.

(** C1.  With the [socket] module as CPython has it, building a
    [TCPKeepAliveAdapter] with [idle], [interval] and [count] does not
    return: the lookup of [socket.IPROTO_TCP] raises [AttributeError], and
    the store only has gained the empty instance. *)
Theorem keepalive_construction_raises (idle interval count : Z) (h : heap) :
  new linux_world TCPKeepAliveAdapter
    (<["idle" := VInt idle]>
       (<["interval" := VInt interval]> (<["count" := VInt count]> ∅))) h
  = (h ++ [OInstance TCPKeepAliveAdapter ∅],
     Raise (AttributeError "socket" "IPROTO_TCP")).
Proof.
  apply new_TCPKeepAliveAdapter_linux.
  by rewrite !lookup_insert_ne, lookup_empty by done.
Qed.

(** C4.  The defaults of the three keyword arguments are 60, 20 and 5, but
    [TCPKeepAliveAdapter(idle=120, interval=10)] raises [AttributeError]
    and stores no option list. *)
Theorem keepalive_defaults_then_raises :
  dict_pop ∅ "idle" (VInt 60) = (VInt 60, ∅)
  /\ dict_pop ∅ "interval" (VInt 20) = (VInt 20, ∅)
  /\ dict_pop ∅ "count" (VInt 5) = (VInt 5, ∅)
  /\ (new linux_world TCPKeepAliveAdapter
        (<["idle" := VInt 120]> (<["interval" := VInt 10]> ∅)) linux_heap).2
     = Raise (AttributeError "socket" "IPROTO_TCP")
  /\ attr (new linux_world TCPKeepAliveAdapter
             (<["idle" := VInt 120]> (<["interval" := VInt 10]> ∅))
             linux_heap).1 1 "socket_options" = None.
Proof.
  rewrite new_TCPKeepAliveAdapter_linux
    by (by rewrite !lookup_insert_ne, lookup_empty by done).
  unfold dict_pop. rewrite !delete_empty, !lookup_empty. done.
Qed.

(** C8.  Whatever integers are given for [idle], [interval] and [count],
    and whatever else is passed, building a [TCPKeepAliveAdapter] never
    returns an instance: it raises the same [AttributeError] every time. *)
Theorem keepalive_construction_never_returns (idle interval count : Z)
    (kwargs : gmap string value) (h : heap) (v : value) :
  (new linux_world TCPKeepAliveAdapter
     (<["idle" := VInt idle]>
        (<["interval" := VInt interval]>
           (<["count" := VInt count]> kwargs))) h).2
  <> Ok v.
Proof.
  set (kw := <["idle" := VInt idle]> _).
  destruct (kw !! "self") as [x|] eqn:E.
  - by rewrite new_with_self by (rewrite E; eauto).
  - by rewrite new_TCPKeepAliveAdapter_linux.
Qed.

(** C10.  Passing [socket_options] to [TCPKeepAliveAdapter] does fail, but
    with the [AttributeError] of the misspelt name, raised before the call
    of the parent constructor where the duplicate keyword would be
    noticed (or, when a keyword named [self] is passed as well, with the
    [TypeError] for that keyword, raised when the call is bound); never
    with the duplicate [socket_options]. *)
Theorem keepalive_with_socket_options_raises (v : value)
    (kwargs : gmap string value) (h : heap) :
  (new linux_world TCPKeepAliveAdapter (<["socket_options" := v]> kwargs) h).2
  = (if decide (is_Some (kwargs !! "self"))
     then Raise (TypeError_multiple_values "self")
     else Raise (AttributeError "socket" "IPROTO_TCP"))
  /\ (new linux_world TCPKeepAliveAdapter (<["socket_options" := v]> kwargs) h).2
     <> Raise (TypeError_multiple_values "socket_options").
Proof.
  assert ((<["socket_options" := v]> kwargs) !! "self" = kwargs !! "self")
    as E by (by rewrite lookup_insert_ne).
  case_decide as Hself.
  - by rewrite new_with_self by (by rewrite E).
  - rewrite new_TCPKeepAliveAdapter_linux; [done|].
    rewrite E. destruct (kwargs !! "self"); [|done].
    exfalso. apply Hself. eauto.
Qed.

(** On a module that answers to [IPROTO_TCP], the same calls do what the
    class documents. *)
Example keepalive_on_resolving_module :
  let r := new resolving_world TCPKeepAliveAdapter
             (<["idle" := VInt 120]> (<["interval" := VInt 10]> ∅))
             linux_heap in
  r.2 = Ok (VRef 1%nat)
  /\ list_items r.1 (default VNone (attr r.1 1%nat "socket_options"))
     = Some [ VTuple [VInt 6; VInt 1; VInt 1];
              VTuple [VInt 1; VInt 9; VInt 1];
              VTuple [VInt 6; VInt 4; VInt 120];
              VTuple [VInt 6; VInt 5; VInt 10];
              VTuple [VInt 6; VInt 6; VInt 5] ]
  /\ pool_socket_options r.1 (default VNone (attr r.1 1%nat "poolmanager"))
     = attr r.1 1%nat "socket_options".
Proof. vm_compute. done. Qed.

Example keepalive_duplicate_on_resolving_module :
  (new resolving_world TCPKeepAliveAdapter client_kwargs client_heap).2
  = Raise (TypeError_multiple_values "socket_options").
Proof. vm_compute. done. Qed.

(** ** Counterexamples *)

(** C6 as stated fails on a requests that predates socket options: the
    adapter stores the client's list, two calls of [init_poolmanager]
    return, and neither pool manager is built with it. *)
Lemma init_poolmanager_twice_legacy_counterexample :
  let h0 := (new legacy_world SocketOptionsAdapter client_kwargs client_heap).1 in
  attr h0 2%nat "socket_options" = Some (VRef 1%nat)
  /\ ~ (exists h1 h2 p1 p2,
          init_poolmanager legacy_world 2%nat (VInt 10) (VInt 10) None h0
          = (h1, Ok tt)
          /\ init_poolmanager legacy_world 2%nat (VInt 10) (VInt 10) None h1
             = (h2, Ok tt)
          /\ attr h1 2%nat "poolmanager" = Some (VRef p1)
          /\ attr h2 2%nat "poolmanager" = Some (VRef p2)
          /\ p1 <> p2
          /\ pool_socket_options h2 (VRef p1) = Some (VRef 1%nat)
          /\ pool_socket_options h2 (VRef p2) = Some (VRef 1%nat)).
Proof.
  split; [by vm_compute|].
  intros (h1 & h2 & p1 & p2 & E1 & E2 & Hp1 & Hp2 & _ & _ & S2).
  vm_compute in E1. injection E1 as <-.
  vm_compute in E2. injection E2 as <-.
  vm_compute in Hp2. injection Hp2 as <-.
  vm_compute in S2. discriminate.
Qed.

(** C3 as stated fails there as well: built without arguments, the adapter
    stores the default list, but no pool manager, neither the constructor's
    nor a later one, is passed it. *)
Lemma omitted_options_legacy_counterexample :
  let r := new legacy_world SocketOptionsAdapter ∅ linux_heap in
  r.2 = Ok (VRef 1%nat)
  /\ attr r.1 1%nat "socket_options" = Some (default_socket_options legacy_world)
  /\ ~ (exists p, attr r.1 1%nat "poolmanager" = Some (VRef p)
                  /\ pool_socket_options r.1 (VRef p)
                     = Some (default_socket_options legacy_world))
  /\ ~ (exists h3 p,
          init_poolmanager legacy_world 1%nat (VInt 10) (VInt 10) None r.1
          = (h3, Ok tt)
          /\ attr h3 1%nat "poolmanager" = Some (VRef p)
          /\ pool_socket_options h3 (VRef p)
             = Some (default_socket_options legacy_world)).
Proof.
  split; [by vm_compute|]. split; [by vm_compute|]. split.
  - intros (p & Hp & S). vm_compute in Hp. injection Hp as <-.
    vm_compute in S. discriminate.
  - intros (h3 & p & E & Hp & S). vm_compute in E. injection E as <-.
    vm_compute in Hp. injection Hp as <-.
    vm_compute in S. discriminate.
Qed.


(** ** The theorems at concrete inputs *)

Lemma explicit_options_reach_pool_manager_witness :
  let h1 := (new linux_world SocketOptionsAdapter client_kwargs client_heap).1 in
  0x020400 <= requests_build linux_world
  /\ client_kwargs !! "socket_options" = Some (VRef 1%nat)
  /\ new linux_world SocketOptionsAdapter client_kwargs client_heap
     = (h1, Ok (VRef 2%nat))
  /\ attr h1 2%nat "socket_options" = Some (VRef 1%nat)
  /\ pool_socket_options h1 (default VNone (attr h1 2%nat "poolmanager"))
     = Some (VRef 1%nat).
Proof.
  intros h1.
  assert (0x020400 <= requests_build linux_world) as H1 by (simpl; lia).
  assert (client_kwargs !! "socket_options" = Some (VRef 1%nat)) as H2
    by (vm_compute; reflexivity).
  assert (new linux_world SocketOptionsAdapter client_kwargs client_heap
          = (h1, Ok (VRef 2%nat))) as H3 by (vm_compute; reflexivity).
  destruct (explicit_options_reach_pool_manager linux_world (VRef 1%nat)
              client_kwargs client_heap h1 2%nat H1 H2 H3) as (A & B & _).
  exact (conj H1 (conj H2 (conj H3 (conj A B)))).
Defined.

Lemma omitted_options_are_the_defaults_witness :
  let h1 := (new linux_world SocketOptionsAdapter ∅ linux_heap).1 in
  (∅ : gmap string value) !! "socket_options" = None
  /\ new linux_world SocketOptionsAdapter ∅ linux_heap = (h1, Ok (VRef 1%nat))
  /\ attr h1 1%nat "socket_options" = Some (VRef 0%nat)
  /\ list_items h1 (VRef 0%nat) = Some [ VTuple [VInt 6; VInt 1; VInt 1] ].
Proof.
  intros h1.
  assert ((∅ : gmap string value) !! "socket_options" = None) as H1
    by (vm_compute; reflexivity).
  assert (new linux_world SocketOptionsAdapter ∅ linux_heap
          = (h1, Ok (VRef 1%nat))) as H2 by (vm_compute; reflexivity).
  destruct (omitted_options_are_the_defaults linux_world ∅ linux_heap h1 1%nat
              H1 H2) as (A & B & _).
  exact (conj H1 (conj H2 (conj A
           (B [ VTuple [VInt 6; VInt 1; VInt 1] ] eq_refl)))).
Defined.

Lemma fallback_is_default_pool_initialization_witness :
  requests_build legacy_world < 0x020400
  /\ adapter_heap !! 2%nat = Some (OInstance SocketOptionsAdapter client_kwargs)
  /\ init_poolmanager legacy_world 2%nat (VInt 10) (VInt 10) None adapter_heap
     = HTTPAdapter_init_poolmanager 2%nat (VInt 10) (VInt 10)
         (Some (VBool false)) adapter_heap.
Proof.
  assert (requests_build legacy_world < 0x020400) as H1 by (simpl; lia).
  assert (adapter_heap !! 2%nat
          = Some (OInstance SocketOptionsAdapter client_kwargs)) as H2
    by reflexivity.
  exact (conj H1 (conj H2
           (proj1 (fallback_is_default_pool_initialization legacy_world 2%nat
                     SocketOptionsAdapter client_kwargs (VInt 10) (VInt 10)
                     None adapter_heap H1 H2)))).
Defined.

Lemma init_poolmanager_twice_witness :
  adapter_heap !! 2%nat = Some (OInstance SocketOptionsAdapter client_kwargs)
  /\ SocketOptionsAdapter <> HTTPAdapter
  /\ client_kwargs !! "socket_options" = Some (VRef 1%nat)
  /\ exists h1 h2 p1 p2 kw,
       init_poolmanager linux_world 2%nat (VInt 10) (VInt 10) None adapter_heap
       = (h1, Ok tt)
       /\ init_poolmanager linux_world 2%nat (VInt 10) (VInt 10) None h1
          = (h2, Ok tt)
       /\ attr h1 2%nat "poolmanager" = Some (VRef p1)
       /\ attr h2 2%nat "poolmanager" = Some (VRef p2)
       /\ p1 <> p2
       /\ adapter_heap !! p1 = None /\ h1 !! p2 = None
       /\ h2 !! p1 = Some (OPoolManager (VInt 10) kw)
       /\ h2 !! p2 = Some (OPoolManager (VInt 10) kw)
       /\ kw !! "socket_options"
          = (if 0x020400 <=? requests_build linux_world
             then Some (VRef 1%nat) else None)
       /\ attr h2 2%nat "socket_options" = Some (VRef 1%nat).
Proof.
  assert (adapter_heap !! 2%nat
          = Some (OInstance SocketOptionsAdapter client_kwargs)) as H1
    by reflexivity.
  assert (SocketOptionsAdapter <> HTTPAdapter) as H2 by discriminate.
  assert (client_kwargs !! "socket_options" = Some (VRef 1%nat)) as H3
    by (vm_compute; reflexivity).
  exact (conj H1 (conj H2 (conj H3
           (init_poolmanager_twice linux_world 2%nat SocketOptionsAdapter
              client_kwargs (VRef 1%nat) (VInt 10) (VInt 10) None adapter_heap
              H1 H2 H3)))).
Defined.

Lemma stored_options_invariant_witness :
  let os := [ InitializePool 2%nat (VInt 4) (VInt 8) (Some (VBool true));
              Construct TCPKeepAliveAdapter ∅;
              Construct SocketOptionsAdapter ∅;
              InitializePool 2%nat (VInt 1) (VInt 1) None ] in
  attr adapter_heap 2%nat "socket_options" = Some (VRef 1%nat)
  /\ attr (run_ops linux_world os adapter_heap) 2%nat "socket_options"
     = Some (VRef 1%nat)
  /\ list_items (run_ops linux_world os adapter_heap) (VRef 1%nat)
     = Some [ VTuple [VInt 6; VInt 1; VInt 0] ].
Proof.
  intros os.
  assert (attr adapter_heap 2%nat "socket_options" = Some (VRef 1%nat)) as H1
    by (vm_compute; reflexivity).
  destruct (stored_options_invariant linux_world os adapter_heap 2%nat
              (VRef 1%nat) H1) as (A & _ & B).
  exact (conj H1 (conj A (B [ VTuple [VInt 6; VInt 1; VInt 0] ] eq_refl))).
Defined.


(** * Further properties of the two classes *)

(** ** Closed forms on arbitrary stores *)

Lemma init_poolmanager_supported_exact w self c a opts connections maxsize
    block (h : heap) :
  0x020400 <= requests_build w ->
  h !! self = Some (OInstance c a) ->
  c <> HTTPAdapter ->
  a !! "socket_options" = Some opts ->
  init_poolmanager w self connections maxsize block h
  = (<[self := OInstance c (<["poolmanager" := VRef (length h)]> a)]>
       (h ++ [OPoolManager connections
                (<["maxsize" := maxsize]>
                   (<["block" := default (VBool false) block]>
                      (<["socket_options" := opts]> ∅)))]),
     Ok tt).
Proof.
  intros Hb H Hc Ha. unfold init_poolmanager. rewrite H.
  assert (SocketOptionsAdapter_init_poolmanager w self connections maxsize
            block h
          = (<[self := OInstance c (<["poolmanager" := VRef (length h)]> a)]>
               (h ++ [OPoolManager connections
                        (<["maxsize" := maxsize]>
                           (<["block" := default (VBool false) block]>
                              (<["socket_options" := opts]> ∅)))]),
             Ok tt)) as E.
  { unfold SocketOptionsAdapter_init_poolmanager.
    replace (0x020400 <=? requests_build w) with true by (symmetry; lia).
    cbv zeta. unfold bind at 1. unfold getattr. rewrite H, Ha.
    unfold PoolManager, bind, alloc, ret, setattr.
    by rewrite (lookup_app_l_Some _ _ _ _ H). }
  by destruct c.
Qed.

Lemma insert_fresh_instance (h : heap) x y tl :
  <[length h := x]> ((h ++ [y]) ++ tl) = h ++ x :: tl.
Proof.
  rewrite <- (assoc_L (++)). simpl.
  rewrite insert_app_r_alt by lia. by rewrite Nat.sub_diag.
Qed.

Lemma SocketOptionsAdapter_init_unexpected w self c kwargs (h : heap) :
  c <> HTTPAdapter ->
  (self < length h)%nat ->
  ~ dom (delete "socket_options" kwargs) ⊆ HTTPAdapter_params ->
  SocketOptionsAdapter_init w self kwargs (<[self := OInstance c ∅]> h)
  = (<[self := OInstance c
                 (<["socket_options" := resolved_options w kwargs]> ∅)]> h,
     Raise TypeError_unexpected_keyword).
Proof.
  intros Hc Hl Hdom. unfold SocketOptionsAdapter_init, dict_pop.
  unfold bind at 1. unfold getattr at 1.
  rewrite list_lookup_insert_eq by done. rewrite lookup_empty.
  replace (class_attr w c "default_options")
    with (Some (default_socket_options w)) by (by destruct c).
  fold (resolved_options w kwargs). run.
  by rewrite HTTPAdapter_init_unexpected by done.
Qed.

(** ** SocketOptionsAdapter.__init__ *)

(** X1.  A keyword that is neither [socket_options] nor one the base
    constructor takes (nor [self], which is refused before the body runs)
    makes [SocketOptionsAdapter(...)] raise the base constructor's
    [TypeError].  By then the options have been stored on the
    instance, which is all the store has gained: no pool manager was
    built and nothing that was there has changed. *)
Theorem SocketOptionsAdapter_unexpected_keyword w kwargs (h : heap) :
  kwargs !! "self" = None ->
  ~ dom (delete "socket_options" kwargs) ⊆ HTTPAdapter_params ->
  new w SocketOptionsAdapter kwargs h
  = (h ++ [OInstance SocketOptionsAdapter
             (<["socket_options" := resolved_options w kwargs]> ∅)],
     Raise TypeError_unexpected_keyword).
Proof.
  intros Hns Hdom. rewrite new_without_self by done. simpl init_of.
  assert ((h ++ [OInstance SocketOptionsAdapter ∅]) !! length h
          = Some (OInstance SocketOptionsAdapter ∅)) as Hself
    by (by apply list_lookup_middle).
  pose proof (SocketOptionsAdapter_init_unexpected w (length h)
                SocketOptionsAdapter kwargs
                (h ++ [OInstance SocketOptionsAdapter ∅])) as E.
  rewrite (list_insert_id _ _ _ Hself) in E.
  unfold bind. rewrite E; [|done|heap_len|done].
  f_equal. rewrite <- (app_nil_r (h ++ [_])).
  rewrite insert_fresh_instance. done.
Qed.

(** The store after a successful construction, with the base constructor
    as modelled. *)
Lemma new_SocketOptionsAdapter_store w kwargs (h : heap) :
  dom (delete "socket_options" kwargs) ⊆ HTTPAdapter_params ->
  exists a',
    new w SocketOptionsAdapter kwargs h
    = (h ++ [ OInstance SocketOptionsAdapter a'; ODict ∅; ODict ∅;
              OPoolManager
                (default (VInt 10) (kwargs !! "pool_connections"))
                (pool_kw w (resolved_options w kwargs)
                   (default (VInt 10) (kwargs !! "pool_maxsize"))
                   (default (VBool false) (kwargs !! "pool_block"))) ],
       Ok (VRef (length h)))
    /\ a' !! "socket_options" = Some (resolved_options w kwargs)
    /\ a' !! "poolmanager" = Some (VRef (length h + 3)).
Proof.
  intros Hdom.
  assert (kwargs !! "self" = None) as Hns.
  { apply params_exclude_self in Hdom.
    by rewrite lookup_delete_ne in Hdom by done. }
  rewrite new_without_self by done. simpl init_of.
  assert ((h ++ [OInstance SocketOptionsAdapter ∅]) !! length h
          = Some (OInstance SocketOptionsAdapter ∅)) as Hself
    by (by apply list_lookup_middle).
  destruct (SocketOptionsAdapter_init_run w (length h) SocketOptionsAdapter
              kwargs (h ++ [OInstance SocketOptionsAdapter ∅]))
    as (a' & E & E1 & E2); [done | heap_len |].
  rewrite (list_insert_id _ _ _ Hself) in E.
  rewrite bool_decide_eq_true_2 in E by done.
  unfold bind. rewrite E. exists a'.
  split; [|split; [done|]].
  - rewrite insert_fresh_instance. done.
  - rewrite E2 by done. rewrite length_app. simpl. do 2 f_equal. lia.
Qed.

(** X2.  When every keyword other than [socket_options] is one of the base
    constructor's, [SocketOptionsAdapter(...)] returns a new instance of the
    class and leaves every object that was in the store as it was.  The
    instance has the resolved options stored, and its [poolmanager] is a
    pool manager that was not there before, built from [pool_connections],
    [pool_maxsize] and [pool_block] (10, 10 and [False] when left out) and,
    on a requests that supports them, the stored options: [socket_options]
    is popped and never reaches the base constructor. *)
Theorem SocketOptionsAdapter_construction w kwargs (h : heap) :
  dom (delete "socket_options" kwargs) ⊆ HTTPAdapter_params ->
  exists h1 p,
    new w SocketOptionsAdapter kwargs h = (h1, Ok (VRef (length h)))
    /\ (forall l o, h !! l = Some o -> h1 !! l = Some o)
    /\ class_of h1 (length h) = Some SocketOptionsAdapter
    /\ attr h1 (length h) "socket_options" = Some (resolved_options w kwargs)
    /\ attr h1 (length h) "poolmanager" = Some (VRef p)
    /\ h !! p = None
    /\ h1 !! p
       = Some (OPoolManager
                 (default (VInt 10) (kwargs !! "pool_connections"))
                 (pool_kw w (resolved_options w kwargs)
                    (default (VInt 10) (kwargs !! "pool_maxsize"))
                    (default (VBool false) (kwargs !! "pool_block")))).
Proof.
  intros Hdom.
  destruct (new_SocketOptionsAdapter_store w kwargs h Hdom)
    as (a' & E & Ea & Ep).
  rewrite E. do 2 eexists. split; [reflexivity|].
  split; [intros l o H; by apply lookup_app_l_Some|].
  split; [unfold class_of; by rewrite list_lookup_middle|].
  split; [unfold attr; by rewrite list_lookup_middle|].
  split; [unfold attr; rewrite list_lookup_middle by done; exact Ep|].
  split; [apply lookup_ge_None_2; lia|].
  rewrite lookup_app_r by lia.
  by replace (length h + 3 - length h)%nat with 3%nat by lia.
Qed.

(** ** SocketOptionsAdapter.init_poolmanager *)

(** X3.  On a requests that supports socket options, [init_poolmanager] on
    an adapter that has no [socket_options] attribute raises
    [AttributeError] when it evaluates [self.socket_options]; no pool
    manager is built and the store is left exactly as it was. *)
Theorem init_poolmanager_without_options w self c a connections maxsize block
    (h : heap) :
  0x020400 <= requests_build w ->
  h !! self = Some (OInstance c a) ->
  c <> HTTPAdapter ->
  a !! "socket_options" = None ->
  init_poolmanager w self connections maxsize block h
  = (h, Raise (AttributeError (class_name c) "socket_options")).
Proof.
  intros Hb H Hc Ha. unfold init_poolmanager. rewrite H.
  assert (SocketOptionsAdapter_init_poolmanager w self connections maxsize
            block h
          = (h, Raise (AttributeError (class_name c) "socket_options"))) as E.
  { unfold SocketOptionsAdapter_init_poolmanager.
    replace (0x020400 <=? requests_build w) with true by (symmetry; lia).
    cbv zeta. unfold bind, getattr. rewrite H, Ha. by destruct c. }
  by destruct c.
Qed.


(** ** Several adapters, and the lists they refer to *)


(** X6.  No sequence of operations ever changes an object that is not an
    adapter: every list (the transport library's default list and the
    clients' lists among them), every dictionary and every pool manager
    built earlier is still in the store, the same, and every instance is
    still an instance of its class. *)
Theorem operations_modify_instances_only w os (h : heap) :
  (forall l xs, h !! l = Some (OList xs) ->
                run_ops w os h !! l = Some (OList xs))
  /\ (forall l d, h !! l = Some (ODict d) ->
                  run_ops w os h !! l = Some (ODict d))
  /\ (forall l n kw, h !! l = Some (OPoolManager n kw) ->
                     run_ops w os h !! l = Some (OPoolManager n kw))
  /\ (forall l c a, h !! l = Some (OInstance c a) ->
                    exists a', run_ops w os h !! l = Some (OInstance c a')).
Proof.
  pose proof (run_ops_preserves w os h) as P.
  repeat split.
  - intros l xs H. by destruct (P l _ H) as (o' & -> & ->).
  - intros l d H. by destruct (P l _ H) as (o' & -> & ->).
  - intros l n kw H. by destruct (P l _ H) as (o' & -> & ->).
  - intros l c a H. destruct (P l _ H) as (o' & -> & (a' & -> & _)). eauto.
Qed.

(** X7.  The adapter keeps the client's list by reference and makes no copy
    of it: when the client changes the items of its list after building
    the adapter, the next [init_poolmanager] hands the pool manager the same
    list object, which then has the new items. *)
Theorem options_are_shared_with_the_client w kwargs (h h1 : heap) a l xs xs'
    connections maxsize block :
  0x020400 <= requests_build w ->
  kwargs !! "socket_options" = Some (VRef l) ->
  h !! l = Some (OList xs) ->
  new w SocketOptionsAdapter kwargs h = (h1, Ok (VRef a)) ->
  exists h3,
    init_poolmanager w a connections maxsize block (<[l := OList xs']> h1)
    = (h3, Ok tt)
    /\ pool_socket_options h3 (default VNone (attr h3 a "poolmanager"))
       = Some (VRef l)
    /\ list_items h3 (VRef l) = Some xs'.
Proof.
  intros Hb Hl Hxs Hnew.
  destruct (new_SocketOptionsAdapter_run w kwargs h
              (new_Ok_without_self _ _ _ _ _ _ Hnew))
    as (h' & r & E & Ha & Hc & P & Hr).
  rewrite Hnew in E. injection E as <- <-.
  case_bool_decide; [destruct Hr as ([= ->] & _) | done].
  assert (l < length h)%nat as Hlt by (by eapply lookup_lt_Some).
  unfold resolved_options in Ha. rewrite Hl in Ha. simpl in Ha.
  unfold attr in Ha. unfold class_of in Hc.
  destruct (h1 !! length h) as [[| |c a1|]|] eqn:E1; try done.
  injection Hc as ->.
  assert (l < length h1)%nat as Hlt1.
  { apply lookup_lt_Some in E1. lia. }
  assert ((<[l := OList xs']> h1) !! length h
          = Some (OInstance SocketOptionsAdapter a1)) as E1'
    by (rewrite list_lookup_insert_ne by lia; done).
  rewrite (init_poolmanager_supported_exact w (length h) SocketOptionsAdapter
             a1 (VRef l) connections maxsize block _ Hb E1') by done.
  assert (length h < length h1)%nat by (by eapply lookup_lt_Some).
  eexists. split; [reflexivity|]. split.
  - rewrite attr_insert by (rewrite length_app, length_insert; simpl; lia).
    rewrite lookup_insert_eq. simpl.
    rewrite list_lookup_insert_ne by (rewrite length_insert; lia).
    rewrite list_lookup_middle by done.
    by rewrite !lookup_insert_ne, lookup_insert_eq by done.
  - simpl. rewrite list_lookup_insert_ne by lia.
    rewrite lookup_app_l by (rewrite length_insert; lia).
    by rewrite list_lookup_insert_eq by done.
Qed.

(** ** TCPKeepAliveAdapter.__init__ *)

(** X8.  [TCPKeepAliveAdapter(...)] raises [AttributeError] for the first
    name, in the order the constructor asks for them, that the [socket]
    module does not have, whatever the keyword arguments are (short of a
    keyword named [self], which is refused before the body runs); the store
    has then gained the empty instance and nothing else.  (A platform without
    [TCP_KEEPIDLE] fails the same way as the misspelt [IPROTO_TCP].) *)
Theorem keepalive_first_missing_name w kwargs (h : heap) name :
  kwargs !! "self" = None ->
  find (missing (socket w)) keepalive_lookups = Some name ->
  new w TCPKeepAliveAdapter kwargs h
  = (h ++ [OInstance TCPKeepAliveAdapter ∅],
     Raise (AttributeError "socket" name)).
Proof.
  intros Hns Hfind.
  assert (TCPKeepAliveAdapter_init w (length h) kwargs
            (h ++ [OInstance TCPKeepAliveAdapter ∅])
          = (h ++ [OInstance TCPKeepAliveAdapter ∅],
             Raise (AttributeError "socket" name))) as E.
  { revert Hfind. unfold keepalive_lookups. cbn [find]. unfold missing.
    unfold TCPKeepAliveAdapter_init, dict_pop, getattr_class, getattr_module.
    simpl class_attr. cbv zeta. unfold bind, ret, raise.
    destruct (socket w !! "SOL_SOCKET"); [|intros [= <-]; reflexivity].
    destruct (socket w !! "SO_KEEPALIVE"); [|intros [= <-]; reflexivity].
    destruct (socket w !! "IPROTO_TCP"); [|intros [= <-]; reflexivity].
    destruct (socket w !! "TCP_KEEPIDLE"); [|intros [= <-]; reflexivity].
    destruct (socket w !! "TCP_KEEPINTVL"); [|intros [= <-]; reflexivity].
    destruct (socket w !! "TCP_KEEPCNT"); [|intros [= <-]; reflexivity].
    discriminate. }
  rewrite new_without_self by done. simpl init_of. unfold bind.
  by rewrite E.
Qed.

(** X9.  On a [socket] module that answers to every name asked for,
    [TCPKeepAliveAdapter(...)] with base-constructor keywords only returns
    the instance.  Its options are a new list object, not the default list:
    the default entries followed by the four keep-alive entries with
    [idle], [interval] and [count] as passed (60, 20 and 5 when left out);
    the default list keeps its items; and the pool manager built by the
    constructor is handed the new list when requests supports socket
    options. *)
Theorem keepalive_options_on_resolving_module w kwargs (h : heap)
    sol_socket so_keepalive tcp keepidle keepintvl keepcnt ld ds :
  socket w !! "SOL_SOCKET" = Some sol_socket ->
  socket w !! "SO_KEEPALIVE" = Some so_keepalive ->
  socket w !! "IPROTO_TCP" = Some tcp ->
  socket w !! "TCP_KEEPIDLE" = Some keepidle ->
  socket w !! "TCP_KEEPINTVL" = Some keepintvl ->
  socket w !! "TCP_KEEPCNT" = Some keepcnt ->
  default_socket_options w = VRef ld ->
  h !! ld = Some (OList ds) ->
  kwargs !! "socket_options" = None ->
  dom (delete "count" (delete "interval" (delete "idle" kwargs)))
    ⊆ HTTPAdapter_params ->
  exists h1 lo,
    new w TCPKeepAliveAdapter kwargs h = (h1, Ok (VRef (length h)))
    /\ attr h1 (length h) "socket_options" = Some (VRef lo)
    /\ lo <> ld
    /\ h1 !! lo
       = Some (OList (ds ++
                 [ VTuple [sol_socket; so_keepalive; VInt 1];
                   VTuple [tcp; keepidle; default (VInt 60) (kwargs !! "idle")];
                   VTuple [tcp; keepintvl;
                           default (VInt 20) (kwargs !! "interval")];
                   VTuple [tcp; keepcnt; default (VInt 5) (kwargs !! "count")] ]))
    /\ h1 !! ld = Some (OList ds)
    /\ pool_socket_options h1 (default VNone (attr h1 (length h) "poolmanager"))
       = if 0x020400 <=? requests_build w then Some (VRef lo) else None.
Proof.
  intros Hsol Hka Htcp Hidle Hintvl Hcnt Hd Hld Hso Hdom.
  destruct (new_TCPKeepAliveAdapter_resolved w kwargs h sol_socket so_keepalive
              tcp keepidle keepintvl keepcnt ld ds)
    as (h1 & lo & E & Ha & Hlo & Hld1 & (p & n & kw & Hp & Hpm & Hkw));
    try done.
  exists h1, lo. split; [done|]. split; [done|]. split.
  { intros ->. rewrite Hlo in Hld1. injection Hld1 as Hds.
    apply (f_equal length) in Hds. rewrite length_app in Hds.
    simpl in Hds. lia. }
  split; [done|]. split; [done|].
  rewrite Hp. simpl. by rewrite Hpm.
Qed.

(** ** The further properties at concrete inputs *)

Lemma SocketOptionsAdapter_unexpected_keyword_witness :
  let kwargs : gmap string value := <["timeout" := VInt 5]> client_kwargs in
  kwargs !! "self" = None
  /\ ~ dom (delete "socket_options" kwargs) ⊆ HTTPAdapter_params
  /\ new linux_world SocketOptionsAdapter kwargs client_heap
     = (client_heap ++ [OInstance SocketOptionsAdapter client_kwargs],
        Raise TypeError_unexpected_keyword).
Proof.
  intros kwargs.
  assert (bool_decide (dom (delete "socket_options" kwargs)
                         ⊆ HTTPAdapter_params) = false) as B
    by (vm_compute; reflexivity).
  pose proof (bool_decide_eq_false_1 _ B) as H1.
  assert (kwargs !! "self" = None) as H0 by (vm_compute; reflexivity).
  exact (conj H0 (conj H1
           (SocketOptionsAdapter_unexpected_keyword linux_world kwargs
              client_heap H0 H1))).
Defined.

Lemma SocketOptionsAdapter_construction_witness :
  dom (delete "socket_options" client_kwargs) ⊆ HTTPAdapter_params
  /\ exists h1 p,
       new linux_world SocketOptionsAdapter client_kwargs client_heap
       = (h1, Ok (VRef (length client_heap)))
       /\ (forall l o, client_heap !! l = Some o -> h1 !! l = Some o)
       /\ class_of h1 (length client_heap) = Some SocketOptionsAdapter
       /\ attr h1 (length client_heap) "socket_options"
          = Some (resolved_options linux_world client_kwargs)
       /\ attr h1 (length client_heap) "poolmanager" = Some (VRef p)
       /\ client_heap !! p = None
       /\ h1 !! p
          = Some (OPoolManager
                    (default (VInt 10) (client_kwargs !! "pool_connections"))
                    (pool_kw linux_world
                       (resolved_options linux_world client_kwargs)
                       (default (VInt 10) (client_kwargs !! "pool_maxsize"))
                       (default (VBool false)
                          (client_kwargs !! "pool_block")))).
Proof.
  assert (bool_decide (dom (delete "socket_options" client_kwargs)
                         ⊆ HTTPAdapter_params) = true) as B
    by (vm_compute; reflexivity).
  pose proof (bool_decide_eq_true_1 _ B) as H1.
  exact (conj H1 (SocketOptionsAdapter_construction linux_world client_kwargs
                    client_heap H1)).
Defined.

Lemma init_poolmanager_without_options_witness :
  let h := linux_heap ++ [OInstance SocketOptionsAdapter ∅] in
  0x020400 <= requests_build linux_world
  /\ h !! 1%nat = Some (OInstance SocketOptionsAdapter ∅)
  /\ SocketOptionsAdapter <> HTTPAdapter
  /\ (∅ : gmap string value) !! "socket_options" = None
  /\ init_poolmanager linux_world 1%nat (VInt 10) (VInt 10) None h
     = (h, Raise (AttributeError "SocketOptionsAdapter" "socket_options")).
Proof.
  intros h.
  assert (0x020400 <= requests_build linux_world) as H1 by (simpl; lia).
  assert (h !! 1%nat = Some (OInstance SocketOptionsAdapter ∅)) as H2
    by reflexivity.
  assert (SocketOptionsAdapter <> HTTPAdapter) as H3 by discriminate.
  assert ((∅ : gmap string value) !! "socket_options" = None) as H4
    by (vm_compute; reflexivity).
  exact (conj H1 (conj H2 (conj H3 (conj H4
           (init_poolmanager_without_options linux_world 1%nat
              SocketOptionsAdapter ∅ (VInt 10) (VInt 10) None h
              H1 H2 H3 H4))))).
Defined.



Lemma options_are_shared_with_the_client_witness :
  let h1 := (new linux_world SocketOptionsAdapter client_kwargs client_heap).1 in
  0x020400 <= requests_build linux_world
  /\ client_kwargs !! "socket_options" = Some (VRef 1%nat)
  /\ client_heap !! 1%nat = Some (OList [ VTuple [VInt 6; VInt 1; VInt 0] ])
  /\ new linux_world SocketOptionsAdapter client_kwargs client_heap
     = (h1, Ok (VRef 2%nat))
  /\ exists h3,
       init_poolmanager linux_world 2%nat (VInt 10) (VInt 10) None
         (<[1%nat := OList []]> h1) = (h3, Ok tt)
       /\ pool_socket_options h3 (default VNone (attr h3 2%nat "poolmanager"))
          = Some (VRef 1%nat)
       /\ list_items h3 (VRef 1%nat) = Some [].
Proof.
  intros h1.
  assert (0x020400 <= requests_build linux_world) as H1 by (simpl; lia).
  assert (client_kwargs !! "socket_options" = Some (VRef 1%nat)) as H2
    by (vm_compute; reflexivity).
  assert (client_heap !! 1%nat
          = Some (OList [ VTuple [VInt 6; VInt 1; VInt 0] ])) as H3
    by reflexivity.
  assert (new linux_world SocketOptionsAdapter client_kwargs client_heap
          = (h1, Ok (VRef 2%nat))) as H4 by (vm_compute; reflexivity).
  exact (conj H1 (conj H2 (conj H3 (conj H4
           (options_are_shared_with_the_client linux_world client_kwargs
              client_heap h1 2%nat 1%nat _ [] (VInt 10) (VInt 10) None
              H1 H2 H3 H4))))).
Defined.

Lemma keepalive_first_missing_name_witness :
  client_kwargs !! "self" = None
  /\ find (missing (socket linux_world)) keepalive_lookups = Some "IPROTO_TCP"
  /\ new linux_world TCPKeepAliveAdapter client_kwargs client_heap
     = (client_heap ++ [OInstance TCPKeepAliveAdapter ∅],
        Raise (AttributeError "socket" "IPROTO_TCP")).
Proof.
  assert (find (missing (socket linux_world)) keepalive_lookups
          = Some "IPROTO_TCP") as H1 by (vm_compute; reflexivity).
  assert (client_kwargs !! "self" = None) as H0 by (vm_compute; reflexivity).
  exact (conj H0 (conj H1
           (keepalive_first_missing_name linux_world client_kwargs
              client_heap "IPROTO_TCP" H0 H1))).
Defined.

Lemma keepalive_options_on_resolving_module_witness :
  let kwargs : gmap string value :=
    <["idle" := VInt 120]> (<["interval" := VInt 10]> ∅) in
  socket resolving_world !! "IPROTO_TCP" = Some (VInt 6)
  /\ kwargs !! "socket_options" = None
  /\ dom (delete "count" (delete "interval" (delete "idle" kwargs)))
       ⊆ HTTPAdapter_params
  /\ exists h1 lo,
       new resolving_world TCPKeepAliveAdapter kwargs linux_heap
       = (h1, Ok (VRef (length linux_heap)))
       /\ attr h1 (length linux_heap) "socket_options" = Some (VRef lo)
       /\ lo <> 0%nat
       /\ h1 !! lo
          = Some (OList ([ VTuple [VInt 6; VInt 1; VInt 1] ] ++
                    [ VTuple [VInt 1; VInt 9; VInt 1];
                      VTuple [VInt 6; VInt 4;
                              default (VInt 60) (kwargs !! "idle")];
                      VTuple [VInt 6; VInt 5;
                              default (VInt 20) (kwargs !! "interval")];
                      VTuple [VInt 6; VInt 6;
                              default (VInt 5) (kwargs !! "count")] ]))
       /\ h1 !! 0%nat = Some (OList [ VTuple [VInt 6; VInt 1; VInt 1] ])
       /\ pool_socket_options h1
            (default VNone (attr h1 (length linux_heap) "poolmanager"))
          = if 0x020400 <=? requests_build resolving_world
            then Some (VRef lo) else None.
Proof.
  intros kwargs.
  assert (socket resolving_world !! "SOL_SOCKET" = Some (VInt 1)) as S1
    by (vm_compute; reflexivity).
  assert (socket resolving_world !! "SO_KEEPALIVE" = Some (VInt 9)) as S2
    by (vm_compute; reflexivity).
  assert (socket resolving_world !! "IPROTO_TCP" = Some (VInt 6)) as S3
    by (vm_compute; reflexivity).
  assert (socket resolving_world !! "TCP_KEEPIDLE" = Some (VInt 4)) as S4
    by (vm_compute; reflexivity).
  assert (socket resolving_world !! "TCP_KEEPINTVL" = Some (VInt 5)) as S5
    by (vm_compute; reflexivity).
  assert (socket resolving_world !! "TCP_KEEPCNT" = Some (VInt 6)) as S6
    by (vm_compute; reflexivity).
  assert (kwargs !! "socket_options" = None) as H1
    by (vm_compute; reflexivity).
  assert (bool_decide
            (dom (delete "count" (delete "interval" (delete "idle" kwargs)))
               ⊆ HTTPAdapter_params) = true) as B
    by (vm_compute; reflexivity).
  pose proof (bool_decide_eq_true_1 _ B) as H2.
  exact (conj S3 (conj H1 (conj H2
           (keepalive_options_on_resolving_module resolving_world kwargs
              linux_heap (VInt 1) (VInt 9) (VInt 6) (VInt 4) (VInt 5) (VInt 6)
              0%nat [ VTuple [VInt 6; VInt 1; VInt 1] ]
              S1 S2 S3 S4 S5 S6 eq_refl eq_refl H1 H2)))).
Defined.

Lemma new_TCPKeepAliveAdapter_duplicate_witness :
  client_kwargs !! "self" = None
  /\ socket resolving_world !! "IPROTO_TCP" = Some (VInt 6)
  /\ client_kwargs !! "socket_options" = Some (VRef 1%nat)
  /\ (new resolving_world TCPKeepAliveAdapter client_kwargs client_heap).2
     = Raise (TypeError_multiple_values "socket_options").
Proof.
  assert (socket resolving_world !! "SOL_SOCKET" = Some (VInt 1)) as S1
    by (vm_compute; reflexivity).
  assert (socket resolving_world !! "SO_KEEPALIVE" = Some (VInt 9)) as S2
    by (vm_compute; reflexivity).
  assert (socket resolving_world !! "IPROTO_TCP" = Some (VInt 6)) as S3
    by (vm_compute; reflexivity).
  assert (socket resolving_world !! "TCP_KEEPIDLE" = Some (VInt 4)) as S4
    by (vm_compute; reflexivity).
  assert (socket resolving_world !! "TCP_KEEPINTVL" = Some (VInt 5)) as S5
    by (vm_compute; reflexivity).
  assert (socket resolving_world !! "TCP_KEEPCNT" = Some (VInt 6)) as S6
    by (vm_compute; reflexivity).
  assert (client_kwargs !! "socket_options" = Some (VRef 1%nat)) as H1
    by (vm_compute; reflexivity).
  assert (client_kwargs !! "self" = None) as H0 by (vm_compute; reflexivity).
  exact (conj H0 (conj S3 (conj H1
           (new_TCPKeepAliveAdapter_duplicate resolving_world client_kwargs
              client_heap (VRef 1%nat) (VInt 1) (VInt 9) (VInt 6) (VInt 4)
              (VInt 5) (VInt 6) 0%nat [ VTuple [VInt 6; VInt 1; VInt 1] ]
              H0 S1 S2 S3 S4 S5 S6 eq_refl eq_refl H1)))).
Defined.
